(** * Result serialization of a transcript-quantification run

    A shallow embedding of [src/GZipWriter.cpp]: the writer object, the part
    of the file system it touches, the streams it opens, and the four
    operations [writeEquivCounts], [writeMeta], [writeAbundances] and
    [writeBootstrap], followed by the properties proved about them. *)

From Stdlib Require Import ZArith NArith QArith String Ascii List Lia.
From Stdlib.Strings Require Import Byte.
From Stdlib Require Import DecimalString PrimFloat FloatOps SpecFloat FloatAxioms.
From stdpp Require Import base option list strings gmap.

Local Open Scope string_scope.
Local Open Scope list_scope.

(** ** Numbers *)

(** The C++ type [double], as the operations the writer applies to it.
    The code is embedded once over this interface; [binary64] below is the
    machine arithmetic, [exact] the arithmetic of the rationals. *)
Class Arith (A : Type) := {
  of_N : N -> A;          (* conversion of an unsigned integer, and literals *)
  add : A -> A -> A;
  mul : A -> A -> A;
  div : A -> A -> A;
}.

Definition binary64_of_N (n : N) : float :=
  SF2Prim (binary_normalize prec emax (Z.of_N n) 0 false).

#[export] Instance binary64 : Arith float := {
  of_N := binary64_of_N;
  add := PrimFloat.add;
  mul := PrimFloat.mul;
  div := PrimFloat.div;
}.

#[export] Instance exact : Arith Q := {
  of_N := fun n => inject_Z (Z.of_N n);
  add := Qplus;
  mul := Qmult;
  div := Qdiv;
}.

(** [operator<<] on an unsigned integer: its decimal digits. *)
Definition dec (n : N) : string := NilZero.string_of_uint (N.to_uint n).

(** ** Raw element bytes

    [writeVectorToFile] and [writeBootstrap] are templates over the element
    type [T]; all they use of it is [sizeof(T)] and the bytes of a value. *)
Class Element (T : Type) := {
  sizeof : nat;
  raw : T -> list byte;
  raw_length : forall x, length (raw x) = sizeof;
}.

(** The [n] low bytes of [z], least significant first. *)
Fixpoint le_bytes (n : nat) (z : Z) : list byte :=
  match n with
  | O => []
  | S n' =>
      match Byte.of_N (Z.to_N (z mod 256)%Z) with
      | Some b => b
      | None => Byte.x00
      end :: le_bytes n' (z / 256)%Z
  end.

Lemma le_bytes_length n z : length (le_bytes n z) = n.
Proof. revert z; induction n as [|n IH]; intros z; simpl; [reflexivity|]. now rewrite IH. Qed.

(** [int32_t], two's complement. *)
Definition int32 := Z.
Definition to_int32 (z : Z) : int32 := ((z + 2 ^ 31) mod 2 ^ 32 - 2 ^ 31)%Z.

#[export] Instance int32_Element : Element int32 := {
  sizeof := 4;
  raw := fun z => le_bytes 4 (z mod 2 ^ 32)%Z;
  raw_length := fun z => le_bytes_length 4 _;
}.

(** The 64 bits of a binary64 value (every NaN as the quiet NaN), stored
    least significant byte first. *)
Definition bits64 (x : float) : Z :=
  let sign (s : bool) : Z := (if s then 2 ^ 63 else 0)%Z in
  match Prim2SF x with
  | S754_zero s => sign s
  | S754_infinity s => sign s + 2047 * 2 ^ 52
  | S754_nan => 2047 * 2 ^ 52 + 2 ^ 51
  | S754_finite s m e =>
      if Z.pos m <? 2 ^ 52 then sign s + Z.pos m
      else sign s + (e + 1075) * 2 ^ 52 + (Z.pos m - 2 ^ 52)
  end%Z.

#[export] Instance binary64_Element : Element float := {
  sizeof := 8;
  raw := fun x => le_bytes 8 (bits64 x);
  raw_length := fun x => le_bytes_length 8 _;
}.

Example binary64_literals :
  of_N 0 = 0%float /\ of_N 100 = 100%float /\ of_N 1000000 = 1000000%float.
Proof. repeat split; vm_compute; reflexivity. Qed.

Example bits64_sample :
  bits64 1 = 0x3ff0000000000000%Z /\ bits64 (-2.5) = 0xc004000000000000%Z
  /\ raw 3%float = [x00; x00; x00; x00; x00; x00; x08; x40]%byte.
Proof. repeat split; vm_compute; reflexivity. Qed.

Example dec_sample : dec 0 = "0" /\ dec 1200 = "1200".
Proof. split; reflexivity. Qed.

(** ** The experiment *)

Record Transcript (A : Type) := {
  RefName : string;
  RefLength : N;
  EffectiveLength : A;
  mass : bool -> A;
  sharedCount : A;
  projectedCounts : A;
}.
Arguments RefName {A} _.
Arguments RefLength {A} _.
Arguments EffectiveLength {A} _.
Arguments mass {A} _ _.
Arguments sharedCount {A} _.
Arguments projectedCounts {A} _.

(** [transcript.projectedCounts = v] *)
Definition set_projectedCounts {A} (t : Transcript A) (v : A) : Transcript A :=
  {| RefName := RefName t; RefLength := RefLength t;
     EffectiveLength := EffectiveLength t; mass := mass t;
     sharedCount := sharedCount t; projectedCounts := v |}.

Record TranscriptGroup := { txps : list N }.
Record TGValue := { count : N }.

Inductive Direction := FORWARD | REVERSE_COMPLEMENT.

Record LibraryFormat := { toString : string }.
Record ReadLibrary := { getFormat : LibraryFormat }.

(** The models are opaque to the writer: each is the bytes its
    [writeBinary] emits. *)
Record BinaryModel := { writeBinary : list byte }.

Record ReadKmerDist := { counts : list N }.

(** The two families the templates are instantiated at: [ReadExperiment]
    has a list of read libraries, [AlignmentLibrary<AlnT>] one format. *)
Inductive Libraries :=
| ReadExperiment (readLibraries : list ReadLibrary)
| AlignmentLibrary (format : LibraryFormat).

Record Experiment (A FLD : Type) := {
  transcripts : list (Transcript A);
  eqVec : list (TranscriptGroup * TGValue);
  fragmentLengthDistribution : FLD;
  expectedSeqBias : list A;
  readBias : Direction -> ReadKmerDist;
  readBiasModelObserved : Direction -> BinaryModel;
  readBiasModelExpected : Direction -> BinaryModel;
  observedGC : BinaryModel;
  expectedGCBias : BinaryModel;
  libraries : Libraries;
  numObservedFragments : N;
  numMappedFragments : N;
  effectiveMappingRate : A;
  upperBoundHits : N;
}.
Arguments transcripts {A FLD} _.
Arguments eqVec {A FLD} _.
Arguments fragmentLengthDistribution {A FLD} _.
Arguments expectedSeqBias {A FLD} _.
Arguments readBias {A FLD} _ _.
Arguments readBiasModelObserved {A FLD} _ _.
Arguments readBiasModelExpected {A FLD} _ _.
Arguments observedGC {A FLD} _.
Arguments expectedGCBias {A FLD} _.
Arguments libraries {A FLD} _.
Arguments numObservedFragments {A FLD} _.
Arguments numMappedFragments {A FLD} _.
Arguments effectiveMappingRate {A FLD} _.
Arguments upperBoundHits {A FLD} _.

Definition set_transcripts {A FLD} (e : Experiment A FLD)
    (ts : list (Transcript A)) : Experiment A FLD :=
  {| transcripts := ts; eqVec := eqVec e;
     fragmentLengthDistribution := fragmentLengthDistribution e;
     expectedSeqBias := expectedSeqBias e; readBias := readBias e;
     readBiasModelObserved := readBiasModelObserved e;
     readBiasModelExpected := readBiasModelExpected e;
     observedGC := observedGC e; expectedGCBias := expectedGCBias e;
     libraries := libraries e;
     numObservedFragments := numObservedFragments e;
     numMappedFragments := numMappedFragments e;
     effectiveMappingRate := effectiveMappingRate e;
     upperBoundHits := upperBoundHits e |}.

(** Modelled from the spec: [SalmonOpts.hpp] is not part of the sources;
    the options the writer reads, with the two sample counts as the
    non-negative integers the spec gives them. *)
Record SalmonOpts := {
  auxDir : list string;
  numBootstraps : N;
  numGibbsSamples : N;
  biasCorrect : bool;
  gcBiasCorrect : bool;
  alnMode : bool;
  useQuasi : bool;
  allowOrphans : bool;
}.

(** ** Files *)

(** A path is its sequence of components; [p / q] is [p ++ q]. *)
Abbreviation path := (list string).

Inductive fmt_arg (A : Type) :=
| AStr (s : string)
| AUInt (n : N)
| ADbl (x : A).
Arguments AStr {A} _.
Arguments AUInt {A} _.
Arguments ADbl {A} _.

(** One call [fmt::print(f, format, args...)]. *)
Record fmt_call (A : Type) := Print { fmt_string : string; fmt_args : list (fmt_arg A) }.
Arguments Print {A} _ _.
Arguments fmt_string {A} _.
Arguments fmt_args {A} _.

Inductive jvalue (A : Type) :=
| JStr (s : string)
| JUInt (n : N)
| JDbl (x : A)
| JBool (b : bool)
| JStrings (l : list string).
Arguments JStr {A} _.
Arguments JUInt {A} _.
Arguments JDbl {A} _.
Arguments JBool {A} _.
Arguments JStrings {A} _.

(** What a file holds, by the interface it was written through: characters
    ([operator<<]), raw bytes ([write]), the name-value pairs handed to the
    JSON archive, the [fmt::print] calls; [Gzip] is a payload behind a
    [gzip_compressor]. The codec, the archive's layout and the number
    formatting belong to the libraries. *)
Inductive content (A : Type) :=
| Text (s : string)
| Binary (b : list byte)
| Json (o : list (string * jvalue A))
| Formatted (calls : list (fmt_call A))
| Gzip (level : N) (payload : content A).
Arguments Text {A} _.
Arguments Binary {A} _.
Arguments Json {A} _.
Arguments Formatted {A} _.
Arguments Gzip {A} _ _.

Inductive node (A : Type) :=
| Dir
| File (c : content A).
Arguments Dir {A}.
Arguments File {A} _.

(** An output stream: the sink it was opened on ([None] when the open
    failed) and what has been written to it. Nothing reaches the file
    system before the stream is closed, and nothing at all without a sink. *)
Record ostream (X : Type) := { sink : option path; buf : X }.
Arguments sink {X} _.
Arguments buf {X} _.

Definition put {X} (app : X -> X -> X) (s : ostream X) (x : X) : ostream X :=
  {| sink := sink s; buf := app (buf s) x |}.

(** ** The writer object *)

Inductive level := info.

(** Modelled from the spec: [GZipWriter.hpp] is not part of the sources.
    The members are the ones the methods use; the written-count is the
    spec's counter, a natural number; the logger is the list of records
    it has received. *)
Record GZipWriter := {
  path_ : path;
  bsPath_ : path;
  bsStream_ : option (ostream (list byte));
  numBootstrapsWritten_ : N;
  logger_ : list (level * string);
}.

(** The constructor (lines 14-16) takes the path and the logger; there is
    no bootstrap path and no stream yet, and nothing has been written. *)
Definition new_GZipWriter (p : path) (logger : list (level * string)) : GZipWriter :=
  {| path_ := p; bsPath_ := []; bsStream_ := None;
     numBootstrapsWritten_ := 0; logger_ := logger |}.

(** ** Outcomes and the state the operations run in *)

(** A call returns a value, leaves by an exception
    ([boost::filesystem::filesystem_error]), or has no defined behaviour
    (printing to a null [FILE*]). *)
Inductive outcome (S T : Type) :=
| Returned (v : T) (s : S)
| Threw (s : S)
| Undefined.
Arguments Returned {S T} _ _.
Arguments Threw {S T} _.
Arguments Undefined {S T}.

Definition M (S T : Type) : Type := S -> outcome S T.

Definition ret {S T} (v : T) : M S T := fun s => Returned v s.

Definition bind {S T U} (m : M S T) (k : T -> M S U) : M S U :=
  fun s =>
    match m s with
    | Returned v s' => k v s'
    | Threw s' => Threw s'
    | Undefined => Undefined
    end.

Notation "x <- m ;; k" := (bind m (fun x => k))
  (at level 100, m at next level, right associativity).
Notation "m ;; k" := (bind m (fun _ => k))
  (at level 100, right associativity).

Definition TAB : string := String "009"%char EmptyString.
Definition LF : string := String "010"%char EmptyString.

Section Writer.
Context {A FLD : Type} `{Arith A} `{Element A}.

(** [distribution_utils::samplesFromLogPMF] and [salmon::version] are
    declared outside the sources. *)
Variable samplesFromLogPMF : FLD -> N -> list int32.
Variable version : string.

(** The file system under the writer, the writer object and the
    experiment it is handed by reference. *)
Record State := {
  fs : gmap path (node A);
  self : GZipWriter;
  experiment : Experiment A FLD;
}.

Definition with_fs (s : State) (m : gmap path (node A)) : State :=
  {| fs := m; self := self s; experiment := experiment s |}.
Definition with_self (s : State) (w : GZipWriter) : State :=
  {| fs := fs s; self := w; experiment := experiment s |}.
Definition with_experiment (s : State) (e : Experiment A FLD) : State :=
  {| fs := fs s; self := self s; experiment := e |}.

Definition get_fs : M State (gmap path (node A)) := fun s => Returned (fs s) s.
Definition set_fs (m : gmap path (node A)) : M State unit :=
  fun s => Returned tt (with_fs s m).
Definition get_self : M State GZipWriter := fun s => Returned (self s) s.
Definition set_self (w : GZipWriter) : M State unit :=
  fun s => Returned tt (with_self s w).
Definition get_experiment : M State (Experiment A FLD) :=
  fun s => Returned (experiment s) s.
Definition set_experiment (e : Experiment A FLD) : M State unit :=
  fun s => Returned tt (with_experiment s e).
Definition throw {T} : M State T := fun s => Threw s.
Definition undefined {T} : M State T := fun _ => Undefined.

(** *** Directories and streams *)

(** The empty path is the working directory. *)
Definition is_dir (m : gmap path (node A)) (p : path) : bool :=
  match p with
  | [] => true
  | _ => match m !! p with Some Dir => true | _ => false end
  end.

(** [boost::filesystem::create_directories], walking down from [base]:
    an existing directory is kept, a missing one created, and a component
    that exists as a file makes the call throw. The flag is whether a
    directory was created. *)
Fixpoint mkdirs (base rest : path) (m : gmap path (node A))
    : option bool * gmap path (node A) :=
  match rest with
  | [] => (Some false, m)
  | c :: rest' =>
      let d := base ++ [c] in
      match m !! d with
      | Some Dir => mkdirs d rest' m
      | Some (File _) => (None, m)
      | None =>
          match mkdirs d rest' (<[d:=Dir]> m) with
          | (Some _, m') => (Some true, m')
          | (None, m') => (None, m')
          end
      end
  end.

Definition create_directories (p : path) : M State bool :=
  m <- get_fs ;;
  match mkdirs [] p m with
  | (Some created, m') => set_fs m' ;; ret created
  | (None, m') => set_fs m' ;; throw
  end.

(** A file can be opened for writing when its directory exists and the
    path is not itself a directory. *)
Definition can_open (m : gmap path (node A)) (p : path) : bool :=
  is_dir m (removelast p) && negb (is_dir m p).

(** Opening truncates or creates the file; [enc] says how the stream's
    data ends up as file content. A failed open leaves a stream without
    sink. *)
Definition open {X} (enc : X -> content A) (empty : X) (p : path)
    : M State (ostream X) :=
  m <- get_fs ;;
  if can_open m p
  then set_fs (<[p:=File (enc empty)]> m) ;; ret {| sink := Some p; buf := empty |}
  else ret {| sink := None; buf := empty |}.

Definition close {X} (enc : X -> content A) (s : ostream X) : M State unit :=
  match sink s with
  | Some p => m <- get_fs ;; set_fs (<[p:=File (enc (buf s))]> m)
  | None => ret tt
  end.

(** [std::ofstream]: characters to a plain file. *)
Definition ofstream_open : path -> M State (ostream string) := open Text "".
Definition ofstream_close : ostream string -> M State unit := close Text.

(** [filtering_ostream] with [gzip_compressor(6)] pushed before a
    [file_sink]. *)
Definition gzip_open {X} (enc : X -> content A) : X -> path -> M State (ostream X) :=
  open (fun x => Gzip 6 (enc x)).
Definition gzip_close {X} (enc : X -> content A) : ostream X -> M State unit :=
  close (fun x => Gzip 6 (enc x)).

(** [os << s] and [os.write(bytes)] *)
Definition put_chars (os : ostream string) (s : string) : ostream string :=
  put String.append os s.
Definition write (os : ostream (list byte)) (b : list byte) : ostream (list byte) :=
  put (@app byte) os b.

Notation "os << s" := (put_chars os s) (at level 40, left associativity).

(** *** [writeEquivCounts] (lines 57-98) *)

Definition writeEquivCounts (opts : SalmonOpts) : M State bool :=
  w <- get_self ;;
  let auxDir_ := path_ w ++ auxDir opts in
  auxSuccess <- create_directories auxDir_ ;;
  let eqFilePath := auxDir_ ++ ["eq_classes.txt"] in
  equivFile <- ofstream_open eqFilePath ;;
  e <- get_experiment ;;
  let transcripts_ := transcripts e in
  let eqVec_ := eqVec e in
  let equivFile := equivFile << dec (N.of_nat (length transcripts_)) << LF in
  let equivFile := equivFile << dec (N.of_nat (length eqVec_)) << LF in
  let equivFile :=
    fold_left (fun os t => os << RefName t << LF) transcripts_ equivFile in
  let equivFile :=
    fold_left
      (fun os eq =>
         let count_ := count (snd eq) in
         let tgroup := fst eq in
         let txps_ := txps tgroup in
         let os := os << dec (N.of_nat (length txps_)) << TAB in
         let os := fold_left (fun os tid => os << dec tid << TAB) txps_ os in
         os << dec count_ << LF)
      eqVec_ equivFile in
  ofstream_close equivFile ;;
  ret true.

(** *** [writeVectorToFile] (lines 28-48) *)

(** The memory behind [vec.data()]: the elements' bytes, one after the
    other. *)
Definition data {T} `{Element T} (vec : list T) : list byte := flat_map raw vec.

Definition writeVectorToFile {T} `{Element T} (p : path) (vec : list T)
    : M State bool :=
  out <- gzip_open Binary [] p ;;
  let num := length vec in
  let elemSize := sizeof in
  let out := write out (firstn (num * elemSize) (data vec)) in
  gzip_close Binary out ;;
  ret true.

(** *** [getLibTypeStrings] (lines 100-114), both overloads *)

Definition getLibTypeStrings (e : Experiment A FLD) : list string :=
  match libraries e with
  | ReadExperiment libs =>
      fold_left (fun libStrings rl => libStrings ++ [toString (getFormat rl)]) libs []
  | AlignmentLibrary f => [] ++ [toString f]
  end.

(** *** [writeMeta] (lines 123-301) *)

Definition with_bsPath (w : GZipWriter) (p : path) : GZipWriter :=
  {| path_ := path_ w; bsPath_ := p; bsStream_ := bsStream_ w;
     numBootstrapsWritten_ := numBootstrapsWritten_ w; logger_ := logger_ w |}.

(** A model dumped through its [writeBinary] into a gzip stream of its
    own, closed at the end of the block. *)
Definition dump_model (p : path) (model : BinaryModel) : M State unit :=
  out <- gzip_open Binary [] p ;;
  let out := write out (writeBinary model) in
  gzip_close Binary out.

(** [oa(cereal::make_nvp(k, v))] *)
Definition nvp (oa : ostream (list (string * jvalue A))) (k : string)
    (v : jvalue A) : ostream (list (string * jvalue A)) :=
  put (@app _) oa [(k, v)].

Definition writeMeta (opts : SalmonOpts) (tstring : string) : M State bool :=
  w <- get_self ;;
  experiment_ <- get_experiment ;;
  let auxDir_ := path_ w ++ auxDir opts in
  auxSuccess <- create_directories auxDir_ ;;
  let numBootstraps_ := numBootstraps opts in
  let numSamples :=
    if (0 <? numBootstraps_)%N then numBootstraps_ else numGibbsSamples opts in
  (* [Some b]: the function has returned [b] from inside the block *)
  returned <-
    (if (0 <? numSamples)%N then
       let bsPath := auxDir_ ++ ["bootstrap"] in
       set_self (with_bsPath w bsPath) ;;
       bsSuccess <- create_directories bsPath ;;
       let bsFilename := bsPath ++ ["names.tsv.gz"] in
       nameOut <- gzip_open Text "" bsFilename ;;
       let transcripts_ := transcripts experiment_ in
       let numTxps := length transcripts_ in
       if (numTxps =? 0)%nat then
         gzip_close Text nameOut ;; ret (Some false)
       else
         let nameOut :=
           fold_left
             (fun os tn =>
                match transcripts_ !! tn with
                | Some t =>
                    let os := os << RefName t in
                    if (tn <? numTxps - 1)%nat then os << TAB else os
                | None => os
                end)
             (seq 0 numTxps) nameOut in
         let nameOut := nameOut << LF in
         gzip_close Text nameOut ;; ret None
     else ret None) ;;
  match returned with
  | Some b => ret b
  | None =>
      let fldPath := auxDir_ ++ ["fld.gz"] in
      let numFLDSamples := 10000%N in
      let fldSamples :=
        samplesFromLogPMF (fragmentLengthDistribution experiment_) numFLDSamples in
      writeVectorToFile fldPath fldSamples ;;
      let normBiasPath := auxDir_ ++ ["expected_bias.gz"] in
      writeVectorToFile normBiasPath (expectedSeqBias experiment_) ;;
      let obsBiasPath := auxDir_ ++ ["observed_bias.gz"] in
      let bcounts := counts (readBias experiment_ FORWARD) in
      let observedBias : list int32 := map (fun c => to_int32 (Z.of_N c)) bcounts in
      writeVectorToFile obsBiasPath observedBias ;;
      let obsBiasPath3p := auxDir_ ++ ["observed_bias_3p.gz"] in
      let bcounts3p := counts (readBias experiment_ REVERSE_COMPLEMENT) in
      let observedBias3p : list int32 := map (fun c => to_int32 (Z.of_N c)) bcounts3p in
      writeVectorToFile obsBiasPath3p observedBias3p ;;
      (if biasCorrect opts then
         dump_model (auxDir_ ++ ["obs5_seq.gz"])
                    (readBiasModelObserved experiment_ FORWARD) ;;
         dump_model (auxDir_ ++ ["obs3_seq.gz"])
                    (readBiasModelObserved experiment_ REVERSE_COMPLEMENT) ;;
         dump_model (auxDir_ ++ ["exp5_seq.gz"])
                    (readBiasModelExpected experiment_ FORWARD) ;;
         dump_model (auxDir_ ++ ["exp3_seq.gz"])
                    (readBiasModelExpected experiment_ REVERSE_COMPLEMENT)
       else ret tt) ;;
      (if gcBiasCorrect opts then
         dump_model (auxDir_ ++ ["obs_gc.gz"]) (observedGC experiment_) ;;
         dump_model (auxDir_ ++ ["exp_gc.gz"]) (expectedGCBias experiment_)
       else ret tt) ;;
      let info_ := auxDir_ ++ ["meta_info.json"] in
      oa <- open Json [] info_ ;;
      let sampType := "none" in
      let sampType :=
        if (numBootstraps_ =? 0)%N && (0 <? numSamples)%N then "gibbs" else sampType in
      let sampType := if (0 <? numBootstraps_)%N then "bootstrap" else sampType in
      let transcripts_ := transcripts experiment_ in
      let oa := nvp oa "salmon_version" (JStr version) in
      let oa := nvp oa "samp_type" (JStr sampType) in
      let libStrings := getLibTypeStrings experiment_ in
      let oa := nvp oa "num_libraries" (JUInt (N.of_nat (length libStrings))) in
      let oa := nvp oa "library_types" (JStrings libStrings) in
      let oa := nvp oa "frag_dist_length" (JUInt (N.of_nat (length fldSamples))) in
      let oa := nvp oa "seq_bias_correct" (JBool (biasCorrect opts)) in
      let oa := nvp oa "gc_bias_correct" (JBool (gcBiasCorrect opts)) in
      let oa := nvp oa "num_bias_bins" (JUInt (N.of_nat (length bcounts))) in
      let mapTypeStr := if alnMode opts then "alignment" else "mapping" in
      let oa := nvp oa "mapping_type" (JStr mapTypeStr) in
      let oa := nvp oa "num_targets" (JUInt (N.of_nat (length transcripts_))) in
      let oa := nvp oa "num_bootstraps" (JUInt numSamples) in
      let oa := nvp oa "num_processed" (JUInt (numObservedFragments experiment_)) in
      let oa := nvp oa "num_mapped" (JUInt (numMappedFragments experiment_)) in
      let oa :=
        nvp oa "percent_mapped"
            (JDbl (mul (effectiveMappingRate experiment_) (of_N 100))) in
      let oa := nvp oa "call" (JStr "quant") in
      let oa := nvp oa "start_time" (JStr tstring) in
      close Json oa ;;
      ret true
  end.

(** *** [writeAbundances] (lines 303-349) *)

(** [std::fopen(fname, "w")]: a null handle is a stream without sink. *)
Definition fopen : path -> M State (ostream (list (fmt_call A))) := open Formatted [].
Definition fclose : ostream (list (fmt_call A)) -> M State unit := close Formatted.

(** [fmt::print(f, ...)]; [f] has to be an open file. *)
Definition fmt_print (f : ostream (list (fmt_call A))) (c : fmt_call A)
    : M State (ostream (list (fmt_call A))) :=
  match sink f with
  | Some _ => ret (put (@app _) f [c])
  | None => undefined
  end.

Definition quant_header : string :=
  "Name" ++ TAB ++ "Length" ++ TAB ++ "EffectiveLength" ++ TAB ++ "TPM" ++ TAB
    ++ "NumReads" ++ LF.
Definition quant_row : string :=
  "{}" ++ TAB ++ "{}" ++ TAB ++ "{}" ++ TAB ++ "{}" ++ TAB ++ "{}" ++ LF.

Fixpoint for_each {S X Y} (l : list X) (body : Y -> X -> M S Y) (acc : Y) : M S Y :=
  match l with
  | [] => ret acc
  | x :: l' => acc' <- body acc x ;; for_each l' body acc'
  end.

Definition writeAbundances (sopt : SalmonOpts) : M State bool :=
  w <- get_self ;;
  let useScaledCounts := negb (useQuasi sopt) && Bool.eqb (allowOrphans sopt) false in
  let fname := path_ w ++ ["quant.sf"] in
  output <- fopen fname ;;
  output <- fmt_print output (Print quant_header []) ;;
  readExp <- get_experiment ;;
  let numMappedFrags := of_N (upperBoundHits readExp) in
  let transcripts_ :=
    map (fun transcript =>
           set_projectedCounts transcript
             (if useScaledCounts
              then mul (mass transcript false) numMappedFrags
              else sharedCount transcript))
        (transcripts readExp) in
  set_experiment (set_transcripts readExp transcripts_) ;;
  let tfracDenom :=
    fold_left
      (fun tfracDenom transcript =>
         let refLength := EffectiveLength transcript in
         add tfracDenom (div (div (projectedCounts transcript) numMappedFrags) refLength))
      transcripts_ (of_N 0) in
  let million := of_N 1000000 in
  output <-
    for_each transcripts_
      (fun output transcript =>
         let count_ := projectedCounts transcript in
         let npm := div (projectedCounts transcript) numMappedFrags in
         let effLength := EffectiveLength transcript in
         let tfrac := div (div npm effLength) tfracDenom in
         let tpm := mul tfrac million in
         fmt_print output
           (Print quant_row
              [AStr (RefName transcript); AUInt (RefLength transcript);
               ADbl effLength; ADbl tpm; ADbl count_]))
      output ;;
  fclose output ;;
  ret true.

(** *** [writeBootstrap] (lines 351-375) and the destructor (lines 18-22)

    One call of [writeBootstrap] is one critical section of [writeMutex_]:
    the calls of concurrent workers are the calls below in the order in
    which they took the lock. *)

Definition with_bsStream (w : GZipWriter) (s : ostream (list byte)) : GZipWriter :=
  {| path_ := path_ w; bsPath_ := bsPath_ w; bsStream_ := Some s;
     numBootstrapsWritten_ := numBootstrapsWritten_ w; logger_ := logger_ w |}.

Definition log_info (w : GZipWriter) (msg : string) : GZipWriter :=
  {| path_ := path_ w; bsPath_ := bsPath_ w; bsStream_ := bsStream_ w;
     numBootstrapsWritten_ := numBootstrapsWritten_ w;
     logger_ := logger_ w ++ [(info, msg)] |}.

Definition incr_numBootstrapsWritten (w : GZipWriter) : GZipWriter :=
  {| path_ := path_ w; bsPath_ := bsPath_ w; bsStream_ := bsStream_ w;
     numBootstrapsWritten_ := (numBootstrapsWritten_ w + 1)%N;
     logger_ := logger_ w |}.

Definition writeBootstrap {T} `{Element T} (abund : list T) : M State bool :=
  w <- get_self ;;
  ofile <-
    match bsStream_ w with
    | Some s => ret s
    | None =>
        let bsFilename := bsPath_ w ++ ["bootstraps.gz"] in
        gzip_open Binary [] bsFilename
    end ;;
  let num := length abund in
  let elSize := sizeof in
  let ofile := write ofile (firstn (elSize * num) (data abund)) in
  let w := with_bsStream w ofile in
  let w := log_info w ("wrote " ++ dec (numBootstrapsWritten_ w + 1) ++ " bootstraps") in
  let w := incr_numBootstrapsWritten w in
  set_self w ;;
  ret true.

Definition destroy : M State unit :=
  w <- get_self ;;
  match bsStream_ w with
  | Some s => gzip_close Binary s
  | None => ret tt
  end.

End Writer.

(** ** Specification-side definitions *)

Section Specification.
Context {A FLD : Type} `{Arith A}.

(** What a block "open [p], write, close" does to the file system: the
    file holds [c] afterwards if it could be opened, and nothing changes
    otherwise. *)
Definition store (p : path) (c : content A) (m : gmap path (node A))
    : gmap path (node A) :=
  if can_open m p then <[p:=File c]> m else m.

(** No component on the way from [base] down to [base ++ rest] is a
    regular file: [create_directories] will not throw. *)
Fixpoint creatable (base rest : path) (m : gmap path (node A)) : bool :=
  match rest with
  | [] => true
  | c :: rest' =>
      match m !! (base ++ [c]) with
      | Some (File _) => false
      | _ => creatable (base ++ [c]) rest' m
      end
  end.

(** The file system with every missing directory on that way created. *)
Fixpoint ensure (base rest : path) (m : gmap path (node A)) : gmap path (node A) :=
  match rest with
  | [] => m
  | c :: rest' =>
      ensure (base ++ [c]) rest'
        (match m !! (base ++ [c]) with
         | None => <[base ++ [c]:=Dir]> m
         | Some _ => m
         end)
  end.

(** The layout of [eq_classes.txt] as section 4.2 of the specification
    draws it. *)
Definition eq_class_row (size : N) (ids : list N) (cnt : N) : string :=
  (dec size ++ TAB ++ String.concat "" (map (fun id => dec id ++ TAB) ids)
     ++ dec cnt ++ LF)%string.

Definition eq_classes_layout (names : list string)
    (classes : list (N * list N * N)) : string :=
  (dec (N.of_nat (length names)) ++ LF
     ++ dec (N.of_nat (length classes)) ++ LF
     ++ String.concat "" (map (fun name => name ++ LF) names)
     ++ String.concat ""
          (map (fun c => eq_class_row (fst (fst c)) (snd (fst c)) (snd c)) classes))%string.

(** The single line of [names.tsv.gz]: the names, tab-separated. *)
Definition names_line (names : list string) : string :=
  (String.concat TAB names ++ LF)%string.

(** The TPM rule of section 4.4, the sum taken in transcript order. *)
Definition Sigma (l : list A) : A := fold_left add l (of_N 0).

Definition npm (numMappedFrags : A) (t : Transcript A) : A :=
  div (projectedCounts t) numMappedFrags.

Definition D (numMappedFrags : A) (ts : list (Transcript A)) : A :=
  Sigma (map (fun t => div (npm numMappedFrags t) (EffectiveLength t)) ts).

Definition TPM (numMappedFrags : A) (ts : list (Transcript A)) (t : Transcript A) : A :=
  mul (div (div (npm numMappedFrags t) (EffectiveLength t)) (D numMappedFrags ts))
      (of_N 1000000).

(** The projected-count rule of section 4.4. *)
Definition projected (sopt : SalmonOpts) (upperBoundHits_ : N) (t : Transcript A) : A :=
  if negb (useQuasi sopt) && negb (allowOrphans sopt)
  then mul (mass t false) (of_N upperBoundHits_)
  else sharedCount t.

(** A row of [quant.sf] and its columns. *)
Definition quant_line (name : string) (len : N) (eff tpm numReads : A) : fmt_call A :=
  Print quant_row [AStr name; AUInt len; ADbl eff; ADbl tpm; ADbl numReads].

(** [quant.sf] for the transcripts [ts] as they are after the call: the
    header line, then one row per transcript, in order. *)
Definition quant_sf (numMappedFrags : A) (ts : list (Transcript A)) : list (fmt_call A) :=
  Print quant_header []
  :: map (fun t => quant_line (RefName t) (RefLength t) (EffectiveLength t)
                              (TPM numMappedFrags ts t) (projectedCounts t))
         ts.

Definition dbl_column (k : nat) (c : fmt_call A) : option A :=
  match fmt_args c !! k with
  | Some (ADbl x) => Some x
  | _ => None
  end.

Definition TPM_column (calls : list (fmt_call A)) : list A :=
  omap (dbl_column 3) calls.

Definition NumReads_column (calls : list (fmt_call A)) : list A :=
  omap (dbl_column 4) calls.

(** The manifest's value under a key. *)
Definition field (o : list (string * jvalue A)) (k : string) : option (jvalue A) :=
  snd <$> List.find (fun kv => String.eqb (fst kv) k) o.

Definition num_samples (opts : SalmonOpts) : N :=
  if (0 <? numBootstraps opts)%N then numBootstraps opts else numGibbsSamples opts.

Definition samp_type (opts : SalmonOpts) : string :=
  if (0 <? numBootstraps opts)%N then "bootstrap"
  else if (0 <? numGibbsSamples opts)%N then "gibbs" else "none".

Definition manifest_keys : list string :=
  ["salmon_version"; "samp_type"; "num_libraries"; "library_types";
   "frag_dist_length"; "seq_bias_correct"; "gc_bias_correct"; "num_bias_bins";
   "mapping_type"; "num_targets"; "num_bootstraps"; "num_processed";
   "num_mapped"; "percent_mapped"; "call"; "start_time"].

(** The name-value pairs of the manifest of section 4.3, in order. *)
Definition manifest (version : string) (opts : SalmonOpts) (e : Experiment A FLD)
    (tstring : string) (frag_dist_length : N) : list (string * jvalue A) :=
  [("salmon_version", JStr version);
   ("samp_type", JStr (samp_type opts));
   ("num_libraries", JUInt (N.of_nat (length (getLibTypeStrings e))));
   ("library_types", JStrings (getLibTypeStrings e));
   ("frag_dist_length", JUInt frag_dist_length);
   ("seq_bias_correct", JBool (biasCorrect opts));
   ("gc_bias_correct", JBool (gcBiasCorrect opts));
   ("num_bias_bins", JUInt (N.of_nat (length (counts (readBias e FORWARD)))));
   ("mapping_type", JStr (if alnMode opts then "alignment" else "mapping"));
   ("num_targets", JUInt (N.of_nat (length (transcripts e))));
   ("num_bootstraps", JUInt (num_samples opts));
   ("num_processed", JUInt (numObservedFragments e));
   ("num_mapped", JUInt (numMappedFragments e));
   ("percent_mapped", JDbl (mul (effectiveMappingRate e) (of_N 100)));
   ("call", JStr "quant");
   ("start_time", JStr tstring)].

(** A raw vector or model dump behind the compressor. *)
Definition gz_bytes (b : list byte) : content A := Gzip 6 (Binary b).

(** The artifacts of the table of section 4.3 below [aux], apart from
    [bootstrap/names.tsv.gz], stored in the order the code writes them. *)
Definition meta_artifacts `{Element A} (version : string) (opts : SalmonOpts)
    (e : Experiment A FLD) (tstring : string) (fldSamples : list int32)
    (aux : path) (m : gmap path (node A)) : gmap path (node A) :=
  let observed d := map (fun c => to_int32 (Z.of_N c)) (counts (readBias e d)) in
  let m := store (aux ++ ["fld.gz"]) (gz_bytes (data fldSamples)) m in
  let m := store (aux ++ ["expected_bias.gz"]) (gz_bytes (data (expectedSeqBias e))) m in
  let m := store (aux ++ ["observed_bias.gz"]) (gz_bytes (data (observed FORWARD))) m in
  let m := store (aux ++ ["observed_bias_3p.gz"])
                 (gz_bytes (data (observed REVERSE_COMPLEMENT))) m in
  let m :=
    if biasCorrect opts then
      let m := store (aux ++ ["obs5_seq.gz"])
                     (gz_bytes (writeBinary (readBiasModelObserved e FORWARD))) m in
      let m := store (aux ++ ["obs3_seq.gz"])
                     (gz_bytes (writeBinary (readBiasModelObserved e REVERSE_COMPLEMENT))) m in
      let m := store (aux ++ ["exp5_seq.gz"])
                     (gz_bytes (writeBinary (readBiasModelExpected e FORWARD))) m in
      store (aux ++ ["exp3_seq.gz"])
            (gz_bytes (writeBinary (readBiasModelExpected e REVERSE_COMPLEMENT))) m
    else m in
  let m :=
    if gcBiasCorrect opts then
      let m := store (aux ++ ["obs_gc.gz"]) (gz_bytes (writeBinary (observedGC e))) m in
      store (aux ++ ["exp_gc.gz"]) (gz_bytes (writeBinary (expectedGCBias e))) m
    else m in
  store (aux ++ ["meta_info.json"])
        (Json (manifest version opts e tstring (N.of_nat (length fldSamples)))) m.

(** What a call is observed by: the value it returned, and what is at a
    path once it has ended. *)
Definition result {T} (o : outcome (@State A FLD) T) : option T :=
  match o with
  | Returned v _ => Some v
  | _ => None
  end.

Definition file_after {T} (o : outcome (@State A FLD) T) (p : path) : option (node A) :=
  match o with
  | Returned _ s | Threw s => fs s !! p
  | Undefined => None
  end.

(** Modelled from the spec: [distribution_utils::samplesFromLogPMF] is not
    part of the sources; section 6 of the specification has it produce
    [n] samples when asked for [n]. *)
Definition produces_n_samples (sampler : FLD -> N -> list int32) : Prop :=
  forall d n, length (sampler d n) = N.to_nat n.

(** The paths of one run. *)
Definition aux_dir (s : @State A FLD) (opts : SalmonOpts) : path :=
  path_ (self s) ++ auxDir opts.
Definition bootstrap_dir (s : @State A FLD) (opts : SalmonOpts) : path :=
  aux_dir s opts ++ ["bootstrap"].

(** The state [writeAbundances] leaves when [quant.sf] can be opened. *)
Definition after_writeAbundances (sopt : SalmonOpts) (σ : @State A FLD) : @State A FLD :=
  let e := experiment σ in
  let ts := map (fun t => set_projectedCounts t (projected sopt (upperBoundHits e) t))
                (transcripts e) in
  {| fs := <[path_ (self σ) ++ ["quant.sf"] :=
               File (Formatted (quant_sf (of_N (upperBoundHits e)) ts))]> (fs σ);
     self := self σ;
     experiment := set_transcripts e ts |}.

End Specification.


(** ** Scenarios

    The end-to-end scenarios of section 8 of the specification, over any
    arithmetic: three transcripts A, B, C with 100, 300 and 600 of 1000
    mapped fragments, written under [out/]. *)

Module Scenario.
Section Scenario.
Context {A : Type} `{Arith A}.

Definition tx (name : string) (len eff cnt : N) : Transcript A :=
  {| RefName := name; RefLength := len; EffectiveLength := of_N eff;
     mass := fun _ => div (of_N cnt) (of_N 1000);
     sharedCount := of_N cnt; projectedCounts := of_N 0 |}.

Definition no_model : BinaryModel := {| writeBinary := [] |}.

Definition experiment_of (ts : list (Transcript A)) : Experiment A unit :=
  {| transcripts := ts;
     eqVec := [({| txps := [0; 1]%N |}, {| count := 400 |});
               ({| txps := [2]%N |}, {| count := 600 |})];
     fragmentLengthDistribution := tt;
     expectedSeqBias := [of_N 1];
     readBias := fun _ => {| counts := [1; 2; 3]%N |};
     readBiasModelObserved := fun _ => no_model;
     readBiasModelExpected := fun _ => no_model;
     observedGC := no_model;
     expectedGCBias := no_model;
     libraries := ReadExperiment [{| getFormat := {| toString := "IU" |} |}];
     numObservedFragments := 1200;
     numMappedFragments := 1000;
     effectiveMappingRate := div (of_N 1000) (of_N 1200);
     upperBoundHits := 1000 |}.

Definition three : list (Transcript A) :=
  [tx "A" 100 80 100; tx "B" 200 180 300; tx "C" 300 280 600].

Definition writer : GZipWriter := new_GZipWriter ["out"] [].

Definition options (bootstraps gibbs : N) (quasi : bool) : SalmonOpts :=
  {| auxDir := ["aux_info"]; numBootstraps := bootstraps;
     numGibbsSamples := gibbs; biasCorrect := false; gcBiasCorrect := false;
     alnMode := false; useQuasi := quasi; allowOrphans := false |}.

(** Only the output directory exists. *)
Definition disk : gmap path (node A) := {[ ["out"] := Dir ]}.

Definition state_of (m : gmap path (node A)) (ts : list (Transcript A))
    : @State A unit :=
  {| fs := m; self := writer; experiment := experiment_of ts |}.

Definition S1 : @State A unit := state_of disk three.

(** S6: no transcript at all. *)
Definition S6 : @State A unit := state_of disk [].

(** A directory sits where [eq_classes.txt] is to be written. *)
Definition blocked : @State A unit :=
  state_of (<[["out"; "aux_info"; "eq_classes.txt"]:=Dir]>
              (<[["out"; "aux_info"]:=Dir]> disk)) three.


Definition sampler (_ : unit) (n : N) : list int32 := repeat 0%Z (N.to_nat n).

End Scenario.




End Scenario.

(** ** Further specification-side definitions *)

Section Inventory.
Context {A FLD : Type} `{Arith A} `{Element A}.

(** The files [writeMeta] writes directly in the aux directory, in the
    order in which it writes them (lines 163-299), each with what it
    holds: the four vector dumps, the four sequence-bias models under
    [biasCorrect], the two GC models under [gcBiasCorrect], the manifest. *)
Definition artifact_list (version : string) (opts : SalmonOpts)
    (e : Experiment A FLD) (tstring : string) (fldSamples : list int32)
    : list (string * content A) :=
  let observed d := map (fun c => to_int32 (Z.of_N c)) (counts (readBias e d)) in
  [("fld.gz", gz_bytes (data fldSamples));
   ("expected_bias.gz", gz_bytes (data (expectedSeqBias e)));
   ("observed_bias.gz", gz_bytes (data (observed FORWARD)));
   ("observed_bias_3p.gz", gz_bytes (data (observed REVERSE_COMPLEMENT)))]
  ++ (if biasCorrect opts then
        [("obs5_seq.gz", gz_bytes (writeBinary (readBiasModelObserved e FORWARD)));
         ("obs3_seq.gz",
          gz_bytes (writeBinary (readBiasModelObserved e REVERSE_COMPLEMENT)));
         ("exp5_seq.gz", gz_bytes (writeBinary (readBiasModelExpected e FORWARD)));
         ("exp3_seq.gz",
          gz_bytes (writeBinary (readBiasModelExpected e REVERSE_COMPLEMENT)))]
      else [])
  ++ (if gcBiasCorrect opts then
        [("obs_gc.gz", gz_bytes (writeBinary (observedGC e)));
         ("exp_gc.gz", gz_bytes (writeBinary (expectedGCBias e)))]
      else [])
  ++ [("meta_info.json",
       Json (manifest version opts e tstring (N.of_nat (length fldSamples))))].

(** Their names. *)
Definition artifact_names (opts : SalmonOpts) : list string :=
  ["fld.gz"; "expected_bias.gz"; "observed_bias.gz"; "observed_bias_3p.gz"]
  ++ (if biasCorrect opts
      then ["obs5_seq.gz"; "obs3_seq.gz"; "exp5_seq.gz"; "exp3_seq.gz"] else [])
  ++ (if gcBiasCorrect opts then ["obs_gc.gz"; "exp_gc.gz"] else [])
  ++ ["meta_info.json"].

(** Files stored one after the other in the directory [dir]. *)
Definition store_all (dir : path) (l : list (string * content A))
    (m : gmap path (node A)) : gmap path (node A) :=
  fold_left (fun m fc => store (dir ++ [fst fc]) (snd fc) m) l m.

(** The payload of a gzip-compressed raw dump. *)
Definition gz_payload (n : option (node A)) : option (list byte) :=
  match n with
  | Some (File (Gzip _ (Binary b))) => Some b
  | _ => None
  end.

(** The state one call [writeBootstrap(abund)] leaves. *)
Definition after_writeBootstrap {T} `{Element T} (abund : list T)
    (σ : @State A FLD) : @State A FLD :=
  let w := self σ in
  let p := bsPath_ w ++ ["bootstraps.gz"] in
  let opened :=
    match bsStream_ w with
    | Some s => (s, fs σ)
    | None =>
        if can_open (fs σ) p
        then ({| sink := Some p; buf := [] |}, <[p:=File (Gzip 6 (Binary []))]> (fs σ))
        else ({| sink := None; buf := [] |}, fs σ)
    end in
  {| fs := snd opened;
     self :=
       {| path_ := path_ w; bsPath_ := bsPath_ w;
          bsStream_ := Some (write (fst opened) (data abund));
          numBootstrapsWritten_ := (numBootstrapsWritten_ w + 1)%N;
          logger_ :=
            logger_ w
              ++ [(info,
                   ("wrote " ++ dec (numBootstrapsWritten_ w + 1) ++ " bootstraps")%string)] |};
     experiment := experiment σ |}.

(** A series of calls of [writeBootstrap], one per vector, as the engine
    makes them. *)
Definition appends {T} `{Element T} (vs : list (list T)) : M (@State A FLD) bool :=
  for_each vs (fun _ v => writeBootstrap v) true.

(** The log records of the calls numbered [from + 1] to [from + n]. *)
Definition wrote_records (from : N) (n : nat) : list (level * string) :=
  map (fun i => (info, ("wrote " ++ dec (from + N.of_nat i) ++ " bootstraps")%string))
      (seq 1 n).

End Inventory.

(** An infinity or NaN: what a quotient by zero is in binary64. *)
Definition unbounded (x : float) : bool :=
  match Prim2SF x with
  | S754_infinity _ | S754_nan => true
  | _ => false
  end.

(** S1 with no fragment mapped, and two bootstrap samples of its three
    transcripts. *)
Definition unmapped : @State float unit :=
  let e := experiment (Scenario.S1 (A:=float)) in
  {| fs := Scenario.disk; self := Scenario.writer;
     experiment :=
       {| transcripts := transcripts e; eqVec := eqVec e;
          fragmentLengthDistribution := fragmentLengthDistribution e;
          expectedSeqBias := expectedSeqBias e; readBias := readBias e;
          readBiasModelObserved := readBiasModelObserved e;
          readBiasModelExpected := readBiasModelExpected e;
          observedGC := observedGC e; expectedGCBias := expectedGCBias e;
          libraries := libraries e;
          numObservedFragments := numObservedFragments e;
          numMappedFragments := 0;
          effectiveMappingRate := effectiveMappingRate e;
          upperBoundHits := 0 |} |}.

Definition two_samples : list (list float) := [[99; 301; 600]; [101; 299; 600]]%float.

(** ** Properties *)

Create Rewrite HintDb files.

Section Properties.
Context {A FLD : Type} `{Arith A} `{Element A}.
Variable samplesFromLogPMF : FLD -> N -> list int32.
Variable version : string.

Implicit Types (m : gmap path (node A)) (p q base rest : path).
Implicit Types (σ : @State A FLD) (opts sopt : SalmonOpts).

Notation "os << s" := (put_chars os s) (at level 40, left associativity).

(** *** Strings and streams *)

Lemma append_assoc (s t u : string) : ((s ++ t) ++ u = s ++ (t ++ u))%string.
Proof.
  induction s as [|a s IH]; [reflexivity|].
  change (String a ((s ++ t) ++ u) = String a (s ++ (t ++ u)))%string.
  now rewrite IH.
Qed.

Lemma append_nil_r (s : string) : (s ++ "")%string = s.
Proof.
  induction s as [|a s IH]; [reflexivity|].
  change (String a (s ++ "") = String a s)%string. now rewrite IH.
Qed.

Lemma concat_cons (x : string) (l : list string) :
  String.concat "" (x :: l) = (x ++ String.concat "" l)%string.
Proof. destruct l; simpl; [now rewrite append_nil_r | reflexivity]. Qed.

Lemma put_chars_fold {X} (f : X -> string) (l : list X) (os : ostream string) :
  fold_left (fun os x => os << f x) l os
  = {| sink := sink os; buf := (buf os ++ String.concat "" (map f l))%string |}.
Proof.
  revert os; induction l as [|x l IH]; intros os.
  - simpl. rewrite append_nil_r. now destruct os.
  - change (fold_left (fun os x => os << f x) l (os << f x)
            = {| sink := sink os;
                 buf := (buf os ++ String.concat "" (map f (x :: l)))%string |}).
    rewrite IH, map_cons, concat_cons. unfold put_chars, put; simpl.
    now rewrite append_assoc.
Qed.

Lemma with_fs_id σ : with_fs σ (fs σ) = σ.
Proof. now destruct σ. Qed.

(** *** Files *)

Lemma is_dir_lookup m p : m !! p = Some Dir -> is_dir m p = true.
Proof. intros Hp. unfold is_dir. rewrite Hp. now destruct p. Qed.

Lemma is_dir_insert_File m p c q :
  is_dir m p = false -> is_dir (<[p:=File c]> m) q = is_dir m q.
Proof.
  intros Hp. destruct q as [|x q]; [reflexivity|].
  destruct (decide (p = x :: q)) as [->|Hne].
  - rewrite Hp. unfold is_dir. now rewrite lookup_insert_eq.
  - unfold is_dir. now rewrite lookup_insert_ne.
Qed.

Lemma is_dir_store p c m q : is_dir (store p c m) q = is_dir m q.
Proof.
  unfold store, can_open.
  destruct (is_dir m (removelast p)); simpl; [|reflexivity].
  destruct (is_dir m p) eqn:Hp; simpl; [reflexivity|].
  now apply is_dir_insert_File.
Qed.

Lemma can_open_store p c m q : can_open (store p c m) q = can_open m q.
Proof. unfold can_open. now rewrite !is_dir_store. Qed.

Lemma lookup_store_eq p c m :
  can_open m p = true -> store p c m !! p = Some (File c).
Proof. intros Hp. unfold store. rewrite Hp. apply lookup_insert_eq. Qed.

Lemma lookup_store_ne p c m q : p ≠ q -> store p c m !! q = m !! q.
Proof.
  intros Hne. unfold store. destruct (can_open m p); [|reflexivity].
  now apply lookup_insert_ne.
Qed.

Lemma open_run {X} (enc : X -> content A) (e : X) p σ :
  open enc e p σ
  = if can_open (fs σ) p
    then Returned {| sink := Some p; buf := e |}
                  (with_fs σ (<[p:=File (enc e)]> (fs σ)))
    else Returned {| sink := None; buf := e |} σ.
Proof. unfold open, bind, get_fs. now destruct (can_open (fs σ) p). Qed.

(** A stream opened, written to and closed stores what was written. *)
Lemma open_close_run {X} (enc : X -> content A) (e : X) p
    (f : ostream X -> ostream X) (x : X) σ :
  (forall os, sink (f os) = sink os) ->
  (forall os, buf os = e -> buf (f os) = x) ->
  (os <- open enc e p ;; close enc (f os)) σ
  = Returned tt (with_fs σ (store p (enc x) (fs σ))).
Proof.
  intros Hsink Hbuf. unfold bind. rewrite open_run. unfold store, close.
  destruct (can_open (fs σ) p).
  - rewrite Hsink; simpl.
    rewrite (Hbuf {| sink := Some p; buf := e |} eq_refl).
    unfold bind, get_fs, set_fs, with_fs; simpl.
    now rewrite insert_insert_eq.
  - rewrite Hsink; simpl. now rewrite with_fs_id.
Qed.

(** *** Directories *)

Lemma creatable_insert base rest m q (x : node A) :
  length q <= length base ->
  creatable base rest (<[q:=x]> m) = creatable base rest m.
Proof.
  revert base; induction rest as [|c rest IH]; intros base Hlen; [reflexivity|].
  simpl. rewrite lookup_insert_ne.
  - rewrite IH; [reflexivity|]. rewrite length_app; simpl; lia.
  - intros ->. rewrite length_app in Hlen; simpl in Hlen; lia.
Qed.

Lemma creatable_app base p q m :
  creatable base (p ++ q) m = true -> creatable base p m = true.
Proof.
  revert base; induction p as [|c p IH]; intros base; [reflexivity|].
  simpl. destruct (m !! (base ++ [c])) as [[|?]|]; auto.
Qed.

Lemma mkdirs_creatable base rest m :
  creatable base rest m = true ->
  exists b, mkdirs base rest m = (Some b, ensure base rest m).
Proof.
  revert base m; induction rest as [|c rest IH]; intros base m Hc.
  - now exists false.
  - simpl in *. destruct (m !! (base ++ [c])) as [[|?]|] eqn:Hd.
    + now apply IH.
    + discriminate.
    + destruct (IH (base ++ [c]) (<[base ++ [c]:=Dir]> m)) as [b Hb].
      * rewrite creatable_insert; auto.
      * rewrite Hb. now exists true.
Qed.

Lemma mkdirs_not_creatable base rest m :
  creatable base rest m = false -> exists m', mkdirs base rest m = (None, m').
Proof.
  revert base m; induction rest as [|c rest IH]; intros base m Hc.
  - discriminate.
  - simpl in *. destruct (m !! (base ++ [c])) as [[|?]|] eqn:Hd.
    + now apply IH.
    + now eexists.
    + destruct (IH (base ++ [c]) (<[base ++ [c]:=Dir]> m)) as [m' Hm'].
      * rewrite creatable_insert; auto.
      * rewrite Hm'. now eexists.
Qed.

Lemma ensure_lookup_cases base rest m q :
  ensure base rest m !! q = m !! q
  \/ (m !! q = None /\ ensure base rest m !! q = Some Dir
      /\ q `prefix_of` base ++ rest).
Proof.
  revert base m; induction rest as [|c rest IH]; intros base m; [now left|].
  simpl. destruct (m !! (base ++ [c])) as [n|] eqn:Hd.
  - destruct (IH (base ++ [c]) m) as [->|(? & ? & Hp)]; [now left|right].
    rewrite <- app_assoc in Hp. auto.
  - destruct (IH (base ++ [c]) (<[base ++ [c]:=Dir]> m)) as [Heq|(Hn & Hs & Hp)].
    + rewrite Heq. destruct (decide (base ++ [c] = q)) as [<-|Hne].
      * right. rewrite lookup_insert_eq. repeat split; auto.
        exists rest. now rewrite <- app_assoc.
      * left. now apply lookup_insert_ne.
    + rewrite <- app_assoc in Hp. right. repeat split; auto.
      destruct (decide (base ++ [c] = q)) as [<-|Hne].
      * now rewrite lookup_insert_eq in Hn.
      * now rewrite lookup_insert_ne in Hn.
Qed.

Lemma ensure_lookup_Some base rest m q (x : node A) :
  m !! q = Some x -> ensure base rest m !! q = Some x.
Proof.
  intros Hq. destruct (ensure_lookup_cases base rest m q) as [->|(Hn & _)]; congruence.
Qed.

Lemma ensure_lookup_frame base rest m q :
  ~ q `prefix_of` base ++ rest -> ensure base rest m !! q = m !! q.
Proof.
  intros Hq. destruct (ensure_lookup_cases base rest m q) as [->|(_ & _ & Hp)]; tauto.
Qed.

Lemma is_dir_ensure_mono base rest m q :
  is_dir m q = true -> is_dir (ensure base rest m) q = true.
Proof.
  destruct q as [|x q]; [reflexivity|]. unfold is_dir.
  destruct (m !! (x :: q)) as [[|?]|] eqn:Hq; try discriminate.
  now rewrite (ensure_lookup_Some _ _ _ _ _ Hq).
Qed.

Lemma is_dir_ensure_frame base rest m q :
  ~ q `prefix_of` base ++ rest -> is_dir (ensure base rest m) q = is_dir m q.
Proof.
  intros Hq. destruct q as [|x q]; [reflexivity|]. unfold is_dir.
  now rewrite ensure_lookup_frame.
Qed.

Lemma is_dir_ensure base rest m :
  creatable base rest m = true -> is_dir m base = true ->
  is_dir (ensure base rest m) (base ++ rest) = true.
Proof.
  revert base m; induction rest as [|c rest IH]; intros base m Hc Hb.
  - simpl. now rewrite app_nil_r.
  - simpl in *. rewrite (cons_middle c base rest), app_assoc.
    destruct (m !! (base ++ [c])) as [[|?]|] eqn:Hd.
    + apply IH; [assumption|]. now apply is_dir_lookup.
    + discriminate.
    + apply IH.
      * rewrite creatable_insert; auto.
      * apply is_dir_lookup, lookup_insert_eq.
Qed.

Lemma creatable_ensure base rest base' rest' m :
  creatable base rest m = true -> creatable base rest (ensure base' rest' m) = true.
Proof.
  revert base; induction rest as [|c rest IH]; intros base; [reflexivity|].
  simpl. destruct (ensure_lookup_cases base' rest' m (base ++ [c])) as [->|(-> & -> & _)].
  - destruct (m !! (base ++ [c])) as [[|?]|]; auto.
  - auto.
Qed.

Lemma create_directories_run p σ :
  creatable [] p (fs σ) = true ->
  exists b, create_directories p σ = Returned b (with_fs σ (ensure [] p (fs σ))).
Proof.
  intros Hc. destruct (mkdirs_creatable _ _ _ Hc) as [b Hb].
  exists b. unfold create_directories, bind, get_fs. now rewrite Hb.
Qed.

(** *** [writeEquivCounts] *)

Lemma fold_left_ext {X Y} (f g : Y -> X -> Y) (l : list X) (a : Y) :
  (forall a x, f a x = g a x) -> fold_left f l a = fold_left g l a.
Proof.
  intros Hfg. revert a; induction l as [|x l IH]; intros a; [reflexivity|].
  simpl. now rewrite Hfg, IH.
Qed.

Lemma put_chars_app (os : ostream string) (a b : string) :
  os << a << b = os << (a ++ b)%string.
Proof. unfold put_chars, put; simpl. now rewrite append_assoc. Qed.

(** The text [writeEquivCounts] sends to its stream. *)
Lemma eq_classes_stream (e : Experiment A FLD) (os : ostream string) :
  let transcripts_ := transcripts e in
  let eqVec_ := eqVec e in
  let os1 := os << dec (N.of_nat (length transcripts_)) << LF in
  let os2 := os1 << dec (N.of_nat (length eqVec_)) << LF in
  let os3 := fold_left (fun os t => os << RefName t << LF) transcripts_ os2 in
  fold_left
    (fun os eq =>
       let count_ := count (snd eq) in
       let tgroup := fst eq in
       let txps_ := txps tgroup in
       let os := os << dec (N.of_nat (length txps_)) << TAB in
       let os := fold_left (fun os tid => os << dec tid << TAB) txps_ os in
       os << dec count_ << LF)
    eqVec_ os3
  = os << eq_classes_layout
            (map RefName transcripts_)
            (map (fun eq => (N.of_nat (length (txps (fst eq))), txps (fst eq), count (snd eq)))
                 eqVec_).
Proof.
  intros transcripts_ eqVec_ os1 os2 os3.
  rewrite (fold_left_ext _
    (fun os eq => os << eq_class_row (N.of_nat (length (txps (fst eq))))
                                     (txps (fst eq)) (count (snd eq)))).
  2:{ intros a [tg v]; simpl.
      rewrite (fold_left_ext _ (fun os tid => os << (dec tid ++ TAB)%string))
        by (intros; apply put_chars_app).
      rewrite put_chars_fold. unfold eq_class_row, put_chars, put; simpl.
      f_equal. now rewrite !append_assoc. }
  rewrite put_chars_fold. subst os3.
  rewrite (fold_left_ext _ (fun os t => os << (RefName t ++ LF)%string))
    by (intros; apply put_chars_app).
  rewrite put_chars_fold. subst os2 os1.
  unfold eq_classes_layout, put_chars, put; simpl. f_equal.
  rewrite !length_map, !map_map, !append_assoc. reflexivity.
Qed.

Lemma writeEquivCounts_run opts σ :
  writeEquivCounts opts σ
  = match mkdirs [] (aux_dir σ opts) (fs σ) with
    | (Some _, m1) =>
        Returned true
          (with_fs σ
             (store (aux_dir σ opts ++ ["eq_classes.txt"])
                (Text (eq_classes_layout
                         (map RefName (transcripts (experiment σ)))
                         (map (fun eq => (N.of_nat (length (txps (fst eq))),
                                          txps (fst eq), count (snd eq)))
                              (eqVec (experiment σ)))))
                m1))
    | (None, m1) => Threw (with_fs σ m1)
    end.
Proof.
  unfold writeEquivCounts, aux_dir, create_directories, ofstream_open,
    ofstream_close.
  unfold bind at 1. unfold get_self. unfold bind at 1. unfold bind at 1.
  unfold get_fs.
  destruct (mkdirs [] (path_ (self σ) ++ auxDir opts) (fs σ)) as [[b|] m1];
    [|reflexivity].
  cbv beta iota. unfold bind at 1. unfold set_fs, ret at 1.
  unfold bind at 1. rewrite open_run.
  pose proof (eq_classes_stream (experiment σ)) as E; cbv zeta in E.
  unfold store. change (fs (with_fs σ m1)) with m1.
  destruct (can_open m1 _).
  - unfold bind at 1, get_experiment. cbv beta iota zeta.
    change (experiment (with_fs (with_fs σ m1) _)) with (experiment σ).
    rewrite E. unfold bind, close, put_chars, put, get_fs, set_fs, ret, with_fs; simpl.
    now rewrite insert_insert_eq.
  - unfold bind at 1, get_experiment. cbv beta iota zeta.
    change (experiment (with_fs σ m1)) with (experiment σ).
    rewrite E. reflexivity.
Qed.

(** *** [writeAbundances] *)

Lemma for_each_fmt_print {X} (g : X -> fmt_call A) (l : list X)
    (os : ostream (list (fmt_call A))) σ :
  is_Some (sink os) ->
  for_each l (fun os x => fmt_print os (g x)) os σ
  = Returned {| sink := sink os; buf := buf os ++ map g l |} σ.
Proof.
  revert os; induction l as [|x l IH]; intros os Hs.
  - simpl. rewrite app_nil_r. now destruct os.
  - simpl. unfold bind, fmt_print at 1. destruct Hs as [p Hp]. rewrite Hp.
    unfold ret at 1. rewrite IH by (simpl; eauto). simpl.
    now rewrite Hp, <- app_assoc.
Qed.

Lemma fold_left_add_map {X} (f : X -> A) (l : list X) (a : A) :
  fold_left (fun acc x => add acc (f x)) l a = fold_left add (map f l) a.
Proof. revert a; induction l as [|x l IH]; intros a; simpl; auto. Qed.

Lemma fmt_print_open (os : ostream (list (fmt_call A))) (c : fmt_call A) σ :
  is_Some (sink os) -> fmt_print os c σ = Returned (put (@app _) os [c]) σ.
Proof. intros [p Hp]. unfold fmt_print. now rewrite Hp. Qed.

Lemma writeAbundances_run sopt σ :
  writeAbundances sopt σ
  = if can_open (fs σ) (path_ (self σ) ++ ["quant.sf"])
    then Returned true (after_writeAbundances sopt σ)
    else Undefined.
Proof.
  unfold writeAbundances, fopen, fclose.
  unfold bind at 1. unfold get_self. unfold bind at 1. rewrite open_run.
  destruct (can_open (fs σ) _); [|reflexivity].
  unfold bind at 1. rewrite fmt_print_open by (simpl; eauto).
  unfold bind at 1, get_experiment.
  cbv beta iota zeta. unfold bind at 1, set_experiment at 1.
  unfold bind at 1.
  rewrite for_each_fmt_print by (simpl; eauto).
  unfold bind, close, ret, get_fs, set_fs, with_fs, with_experiment,
    after_writeAbundances; simpl.
  rewrite insert_insert_eq.
  unfold quant_sf, quant_line, TPM, D, Sigma, npm, projected.
  rewrite <- fold_left_add_map.
  replace (Bool.eqb (allowOrphans sopt) false) with (negb (allowOrphans sopt))
    by now destruct (allowOrphans sopt).
  reflexivity.
Qed.

Lemma can_open_child m p (f : string) :
  is_dir m p = true -> is_dir m (p ++ [f]) = false -> can_open m (p ++ [f]) = true.
Proof. intros Hp Hf. unfold can_open. now rewrite removelast_last, Hp, Hf. Qed.

Lemma can_open_after_ensure m p (f : string) :
  creatable [] p m = true -> is_dir m (p ++ [f]) = false ->
  can_open (ensure [] p m) (p ++ [f]) = true.
Proof.
  intros Hc Hf. apply can_open_child.
  - now apply (is_dir_ensure [] p m).
  - rewrite is_dir_ensure_frame; [assumption|]. apply prefix_snoc_not.
Qed.

(** C6. [eq_classes.txt], once [writeEquivCounts] has written it, is laid
    out as: the number of transcripts, the number of equivalence classes,
    the transcript names in experiment order, one to a line, then for each
    class in order its size, its ids in the group's order and its count,
    with a tab after the size and after every id, all integers in decimal;
    the size written is the number of ids of the row. *)
Theorem C6_eq_classes_layout opts σ :
  creatable [] (aux_dir σ opts) (fs σ) = true ->
  is_dir (fs σ) (aux_dir σ opts ++ ["eq_classes.txt"]) = false ->
  exists σ',
    writeEquivCounts opts σ = Returned true σ'
    /\ fs σ' !! (aux_dir σ opts ++ ["eq_classes.txt"])
       = Some (File (Text (eq_classes_layout
                             (map RefName (transcripts (experiment σ)))
                             (map (fun eq => (N.of_nat (length (txps (fst eq))),
                                              txps (fst eq), count (snd eq)))
                                  (eqVec (experiment σ)))))).
Proof.
  intros Hc Hf. rewrite writeEquivCounts_run.
  destruct (mkdirs_creatable _ _ _ Hc) as [b ->].
  eexists; split; [reflexivity|]. simpl.
  apply lookup_store_eq. now apply can_open_after_ensure.
Qed.

(** C7, as the code has it. [writeEquivCounts] never returns false. It
    returns true whenever the aux directory can be created, whether or
    not [eq_classes.txt] could be opened: when the open fails nothing is
    written, the file system holds the created directories and no more,
    and the value returned is true all the same. When the directory
    cannot be created the call leaves by the exception of
    [create_directories]. *)
Theorem C7_returns_true_regardless opts σ :
  let aux := aux_dir σ opts in
  let file := aux ++ ["eq_classes.txt"] in
  (forall b σ', writeEquivCounts opts σ = Returned b σ' -> b = true)
  /\ if creatable [] aux (fs σ)
     then exists σ',
            writeEquivCounts opts σ = Returned true σ'
            /\ (can_open (ensure [] aux (fs σ)) file = false ->
                fs σ' = ensure [] aux (fs σ))
     else exists σ', writeEquivCounts opts σ = Threw σ'.
Proof.
  intros aux file. rewrite writeEquivCounts_run. fold aux. split.
  - intros b σ'. destruct (mkdirs [] aux (fs σ)) as [[c|] m1]; congruence.
  - destruct (creatable [] aux (fs σ)) eqn:Hc.
    + destruct (mkdirs_creatable _ _ _ Hc) as [b ->].
      eexists; split; [reflexivity|].
      intros Hno. simpl. unfold store. fold file. now rewrite Hno.
    + destruct (mkdirs_not_creatable _ _ _ Hc) as [m' ->]. now eexists.
Qed.

Lemma NumReads_column_quant_sf (n : A) (ts : list (Transcript A)) :
  NumReads_column (quant_sf n ts) = map projectedCounts ts.
Proof.
  unfold NumReads_column, quant_sf. change (omap ?f (?x :: ?l)) with (omap f l).
  generalize (TPM n ts); intros tpm.
  induction ts as [|t ts IH]; [reflexivity|].
  rewrite !map_cons. change (omap ?f (quant_line ?a ?b ?c ?d ?e :: ?l)) with (e :: omap f l).
  now rewrite IH.
Qed.

Lemma TPM_column_quant_sf (n : A) (ts : list (Transcript A)) :
  TPM_column (quant_sf n ts) = map (TPM n ts) ts.
Proof.
  unfold TPM_column, quant_sf. change (omap ?f (?x :: ?l)) with (omap f l).
  generalize (TPM n ts); intros tpm.
  induction ts as [|t ts IH]; [reflexivity|].
  rewrite !map_cons. change (omap ?f (quant_line ?a ?b ?c ?d ?e :: ?l)) with (d :: omap f l).
  now rewrite IH.
Qed.

(** C3. [writeAbundances] sets every transcript's [projectedCounts] by
    the projected-count rule, with the one [upperBoundHits()] read before
    the loops, and the NumReads column of [quant.sf] holds, row by row,
    the transcripts' [projectedCounts]. *)
Theorem C3_projected_counts sopt σ :
  can_open (fs σ) (path_ (self σ) ++ ["quant.sf"]) = true ->
  exists σ' calls,
    writeAbundances sopt σ = Returned true σ'
    /\ transcripts (experiment σ')
       = map (fun t =>
                set_projectedCounts t
                  (if negb (useQuasi sopt) && negb (allowOrphans sopt)
                   then mul (mass t false) (of_N (upperBoundHits (experiment σ)))
                   else sharedCount t))
             (transcripts (experiment σ))
    /\ fs σ' !! (path_ (self σ) ++ ["quant.sf"]) = Some (File (Formatted calls))
    /\ length calls = S (length (transcripts (experiment σ')))
    /\ NumReads_column calls = map projectedCounts (transcripts (experiment σ')).
Proof.
  intros Ho. rewrite writeAbundances_run, Ho.
  eexists; eexists; split; [reflexivity|].
  unfold after_writeAbundances; simpl. split; [reflexivity|].
  split; [apply lookup_insert_eq|].
  unfold quant_sf; simpl. rewrite !length_map. split; [reflexivity|].
  apply NumReads_column_quant_sf.
Qed.

(** C4. The rows of [quant.sf] follow the fixed header line in transcript
    order, and the TPM of a row is [(npm / EffectiveLength) / D * 10^6]
    with [npm = projectedCounts / numMappedFrags] and [D] the sum of
    [npm / EffectiveLength] over the transcripts, all taken on the
    transcripts as the call leaves them. *)
Theorem C4_tpm_rule sopt σ :
  can_open (fs σ) (path_ (self σ) ++ ["quant.sf"]) = true ->
  exists σ',
    writeAbundances sopt σ = Returned true σ'
    /\ fs σ' !! (path_ (self σ) ++ ["quant.sf"])
       = Some (File (Formatted
                       (quant_sf (of_N (upperBoundHits (experiment σ)))
                                 (transcripts (experiment σ'))))).
Proof.
  intros Ho. rewrite writeAbundances_run, Ho.
  eexists; split; [reflexivity|].
  unfold after_writeAbundances; simpl. apply lookup_insert_eq.
Qed.

(** C10. [writeEquivCounts] leaves the experiment as it found it, however
    it ends. [writeAbundances], when [quant.sf] can be opened, changes
    nothing of the experiment but the transcripts' [projectedCounts]: the
    other fields of every transcript and of the experiment are the same
    (and with a null file handle its behaviour is undefined). *)
Theorem C10_frame opts σ :
  match writeEquivCounts opts σ with
  | Returned _ σ' | Threw σ' => experiment σ' = experiment σ
  | Undefined => False
  end
  /\ match writeAbundances opts σ with
     | Returned _ σ' =>
         experiment σ'
         = set_transcripts (experiment σ) (transcripts (experiment σ'))
         /\ Forall2 (fun t t' => t' = set_projectedCounts t (projectedCounts t'))
                    (transcripts (experiment σ)) (transcripts (experiment σ'))
     | Threw _ => False
     | Undefined => can_open (fs σ) (path_ (self σ) ++ ["quant.sf"]) = false
     end.
Proof.
  split.
  - rewrite writeEquivCounts_run.
    now destruct (mkdirs [] (aux_dir σ opts) (fs σ)) as [[b|] m1].
  - rewrite writeAbundances_run.
    destruct (can_open (fs σ) _); [|reflexivity].
    unfold after_writeAbundances; simpl. split; [reflexivity|].
    induction (transcripts (experiment σ)) as [|t ts IH]; simpl; constructor; auto.
Qed.

(** *** [writeBootstrap] *)

Lemma data_length {T} `{Element T} (vec : list T) :
  length (data vec) = length vec * @sizeof T _.
Proof.
  unfold data. induction vec as [|x vec IH]; [reflexivity|].
  simpl. now rewrite length_app, raw_length, IH.
Qed.

Lemma firstn_data {T} `{Element T} (vec : list T) :
  firstn (length vec * @sizeof T _) (data vec) = data vec.
Proof. apply firstn_all2. now rewrite data_length. Qed.

(** C8. One call of [writeBootstrap] appends the bytes of the vector,
    [len * sizeof(element)] of them, to the bootstrap stream, which it
    opens on [bootstraps.gz] under the bootstrap directory if no stream
    is there yet; it logs "wrote N bootstraps" for N one more than the
    written-count it found, and leaves the written-count at N. *)
Theorem C8_writeBootstrap {T} `{Element T} (abund : list T) σ :
  let w := self σ in
  let before := match bsStream_ w with Some s => buf s | None => [] end in
  exists σ' s',
    writeBootstrap abund σ = Returned true σ'
    /\ bsStream_ (self σ') = Some s'
    /\ buf s' = before ++ data abund
    /\ length (data abund) = length abund * @sizeof T _
    /\ sink s'
       = match bsStream_ w with
         | Some s => sink s
         | None =>
             if can_open (fs σ) (bsPath_ w ++ ["bootstraps.gz"])
             then Some (bsPath_ w ++ ["bootstraps.gz"]) else None
         end
    /\ logger_ (self σ')
       = logger_ w
           ++ [(info, ("wrote " ++ dec (numBootstrapsWritten_ w + 1) ++ " bootstraps")%string)]
    /\ numBootstrapsWritten_ (self σ') = (numBootstrapsWritten_ w + 1)%N.
Proof.
  intros w before. unfold writeBootstrap, bind at 1, get_self. fold w.
  rewrite Nat.mul_comm, firstn_data.
  destruct (bsStream_ w) as [s|] eqn:Hs.
  - unfold bind, ret, set_self; simpl.
    eexists; eexists; split; [reflexivity|]. simpl.
    repeat split; auto using data_length.
  - unfold bind at 1, gzip_open. rewrite open_run.
    destruct (can_open (fs σ) _);
      (unfold bind, ret, set_self; simpl;
       eexists; eexists; split; [reflexivity|]; simpl;
       repeat split; auto using data_length).
Qed.

(** *** [writeMeta] *)

Lemma open_close_bind {X T} (enc : X -> content A) (e : X) p
    (f : ostream X -> ostream X) (x : X) (k : M State T) σ :
  (forall os, sink (f os) = sink os) ->
  (forall os, buf os = e -> buf (f os) = x) ->
  (os <- open enc e p ;; close enc (f os) ;; k) σ
  = k (with_fs σ (store p (enc x) (fs σ))).
Proof.
  intros Hsink Hbuf. unfold bind at 1. rewrite open_run. unfold store, close.
  destruct (can_open (fs σ) p).
  - unfold bind at 1. rewrite Hsink; simpl.
    rewrite (Hbuf {| sink := Some p; buf := e |} eq_refl).
    unfold bind, get_fs, set_fs, with_fs; simpl.
    now rewrite insert_insert_eq.
  - unfold bind at 1. rewrite Hsink; simpl. now rewrite with_fs_id.
Qed.

Lemma writeVectorToFile_bind {T U} `{Element T} p (vec : list T)
    (k : M State U) σ :
  (writeVectorToFile p vec ;; k) σ
  = k (with_fs σ (store p (gz_bytes (data vec)) (fs σ))).
Proof.
  unfold writeVectorToFile, gzip_open, gzip_close, gz_bytes. cbv zeta.
  rewrite firstn_data.
  rewrite <- (open_close_bind (fun x => Gzip 6 (Binary x)) [] p
               (fun os => write os (data vec)) (data vec) k σ);
    [|reflexivity|intros os Hb; unfold write, put; simpl; now rewrite Hb].
  unfold bind. destruct (open _ _ _ σ) as [os s'| |]; [|reflexivity..].
  destruct (close _ _ s'); reflexivity.
Qed.

Lemma dump_model_bind {U} p (model : BinaryModel) (k : M State U) σ :
  (dump_model p model ;; k) σ
  = k (with_fs σ (store p (gz_bytes (writeBinary model)) (fs σ))).
Proof.
  unfold dump_model, gzip_open, gzip_close, gz_bytes.
  rewrite <- (open_close_bind (fun x => Gzip 6 (Binary x)) [] p
               (fun os => write os (writeBinary model))
               (writeBinary model) k σ);
    [|reflexivity|intros os Hb; unfold write, put; simpl; now rewrite Hb].
  unfold bind. destruct (open _ _ _ σ) as [os s'| |]; reflexivity.
Qed.

Lemma put_chars_nil (os : ostream string) : os << "" = os.
Proof. unfold put_chars, put. rewrite append_nil_r. now destruct os. Qed.

(** The loop of lines 150-156 writes the names with a tab between them. *)
Lemma names_loop (pre suf : list (Transcript A)) (os : ostream string) :
  fold_left
    (fun os tn =>
       match (pre ++ suf) !! tn with
       | Some t =>
           if (tn <? length (pre ++ suf) - 1)%nat
           then os << RefName t << TAB else os << RefName t
       | None => os
       end)
    (seq (length pre) (length suf)) os
  = os << String.concat TAB (map RefName suf).
Proof.
  revert pre os; induction suf as [|t suf IH]; intros pre os.
  - simpl. now rewrite put_chars_nil.
  - simpl seq. simpl fold_left. rewrite list_lookup_middle by reflexivity.
    specialize (IH (pre ++ [t])).
    replace ((pre ++ [t]) ++ suf) with (pre ++ t :: suf) in IH
      by now rewrite <- app_assoc.
    replace (length (pre ++ [t])) with (S (length pre)) in IH
      by (rewrite length_app; simpl; lia).
    rewrite IH. rewrite length_app; simpl.
    destruct suf as [|t' suf].
    + simpl. rewrite put_chars_nil.
      replace (length pre <? length pre + 1 - 1)%nat with false; [reflexivity|].
      symmetry. apply Nat.ltb_ge. lia.
    + replace (length pre <? length pre + S (length (t' :: suf)) - 1)%nat with true.
      2:{ symmetry. apply Nat.ltb_lt. simpl. lia. }
      rewrite !put_chars_app. reflexivity.
Qed.

Lemma names_loop_all (ts : list (Transcript A)) (os : ostream string) :
  fold_left
    (fun os tn =>
       match ts !! tn with
       | Some t =>
           if (tn <? length ts - 1)%nat
           then os << RefName t << TAB else os << RefName t
       | None => os
       end)
    (seq 0 (length ts)) os
  = os << String.concat TAB (map RefName ts).
Proof. exact (names_loop [] ts os). Qed.

Lemma sampType_samp_type opts :
  (if (0 <? numBootstraps opts)%N then "bootstrap"
   else if (numBootstraps opts =? 0)%N && (0 <? num_samples opts)%N
        then "gibbs" else "none")
  = samp_type opts.
Proof.
  unfold samp_type, num_samples.
  destruct (0 <? numBootstraps opts)%N eqn:Hb; [reflexivity|].
  apply N.ltb_ge in Hb. assert (numBootstraps opts = 0%N) as -> by lia.
  reflexivity.
Qed.

Lemma dump_model_run p (model : BinaryModel) σ :
  dump_model p model σ
  = Returned tt (with_fs σ (store p (gz_bytes (writeBinary model)) (fs σ))).
Proof.
  unfold dump_model, gzip_open, gzip_close, gz_bytes.
  apply (open_close_run (fun x => Gzip 6 (Binary x)) [] p
           (fun os => write os (writeBinary model)) (writeBinary model) σ);
    [reflexivity|intros os Hb; unfold write, put; simpl; now rewrite Hb].
Qed.

Lemma with_fs_with_fs σ m m' : with_fs (with_fs σ m) m' = with_fs σ m'.
Proof. reflexivity. Qed.

Lemma fs_with_fs σ m : fs (with_fs σ m) = m.
Proof. reflexivity. Qed.

Lemma writeMeta_run opts tstring σ :
  let aux := aux_dir σ opts in
  let bs := bootstrap_dir σ opts in
  let e := experiment σ in
  let fldSamples := samplesFromLogPMF (fragmentLengthDistribution e) 10000 in
  let artifacts := meta_artifacts version opts e tstring fldSamples aux in
  creatable [] bs (fs σ) = true ->
  writeMeta samplesFromLogPMF version opts tstring σ
  = if (0 <? num_samples opts)%N then
      let σ2 := with_fs (with_self σ (with_bsPath (self σ) bs))
                        (ensure [] bs (ensure [] aux (fs σ))) in
      match transcripts e with
      | [] =>
          Returned false
            (with_fs σ2 (store (bs ++ ["names.tsv.gz"]) (Gzip 6 (Text "")) (fs σ2)))
      | _ =>
          Returned true
            (with_fs σ2
               (artifacts
                  (store (bs ++ ["names.tsv.gz"])
                         (Gzip 6 (Text (names_line (map RefName (transcripts e)))))
                         (fs σ2))))
      end
    else Returned true (with_fs σ (artifacts (ensure [] aux (fs σ)))).
Proof.
  intros aux bs e fldSamples artifacts Hc.
  assert (Haux : creatable [] aux (fs σ) = true) by (apply (creatable_app _ _ _ _ Hc)).
  unfold writeMeta.
  unfold bind at 1, get_self. unfold bind at 1, get_experiment.
  unfold bind at 1. change (path_ (self σ) ++ auxDir opts) with aux.
  destruct (create_directories_run aux σ Haux) as [b1 ->].
  cbv zeta.
  change (if (0 <? numBootstraps opts)%N then numBootstraps opts
          else numGibbsSamples opts) with (num_samples opts).
  change (aux ++ ["bootstrap"]) with bs.
  change (experiment σ) with e.
  change (samplesFromLogPMF (fragmentLengthDistribution e) 10000) with fldSamples.
  match goal with
  | |- context [match _ with Some b => ret b | None => ?rest end] =>
      assert (Hrest : forall s, rest s = Returned true (with_fs s (artifacts (fs s))))
  end.
  { assert (Hjson : forall s0 : @State A FLD,
              (oa <- open Json [] (aux ++ ["meta_info.json"]) ;;
               close Json
                 (nvp (nvp (nvp (nvp (nvp (nvp (nvp (nvp (nvp (nvp (nvp (nvp (nvp
                   (nvp (nvp (nvp oa
                     "salmon_version" (JStr version))
                     "samp_type"
                       (JStr (if (0 <? numBootstraps opts)%N then "bootstrap"
                              else if (numBootstraps opts =? 0)%N
                                      && (0 <? num_samples opts)%N
                                   then "gibbs" else "none")))
                     "num_libraries" (JUInt (N.of_nat (length (getLibTypeStrings e)))))
                     "library_types" (JStrings (getLibTypeStrings e)))
                     "frag_dist_length" (JUInt (N.of_nat (length fldSamples))))
                     "seq_bias_correct" (JBool (biasCorrect opts)))
                     "gc_bias_correct" (JBool (gcBiasCorrect opts)))
                     "num_bias_bins"
                       (JUInt (N.of_nat (length (counts (readBias e FORWARD))))))
                     "mapping_type"
                       (JStr (if alnMode opts then "alignment" else "mapping")))
                     "num_targets" (JUInt (N.of_nat (length (transcripts e)))))
                     "num_bootstraps" (JUInt (num_samples opts)))
                     "num_processed" (JUInt (numObservedFragments e)))
                     "num_mapped" (JUInt (numMappedFragments e)))
                     "percent_mapped"
                       (JDbl (mul (effectiveMappingRate e) (of_N 100))))
                     "call" (JStr "quant"))
                     "start_time" (JStr tstring)) ;;
               ret true) s0
              = Returned true
                  (with_fs s0
                     (store (aux ++ ["meta_info.json"])
                        (Json (manifest version opts e tstring
                                 (N.of_nat (length fldSamples))))
                        (fs s0)))).
    { intros s0.
      apply (open_close_bind Json [] (aux ++ ["meta_info.json"]) _
               (manifest version opts e tstring (N.of_nat (length fldSamples)))
               (ret true) s0); [reflexivity|].
      intros os Hb. unfold nvp, put; simpl. rewrite Hb; simpl.
      unfold manifest. now rewrite sampType_samp_type. }
    intros s. rewrite !writeVectorToFile_bind.
    rewrite !fs_with_fs, !with_fs_with_fs.
    unfold artifacts, meta_artifacts.
    unfold bind at 1.
    destruct (biasCorrect opts);
      [rewrite !dump_model_bind, dump_model_run | unfold ret at 1];
      cbv beta iota; unfold bind at 1;
      (destruct (gcBiasCorrect opts);
       [rewrite dump_model_bind, dump_model_run | unfold ret at 1]);
      cbv beta iota; rewrite Hjson;
      rewrite ?fs_with_fs, ?with_fs_with_fs; reflexivity. }
  unfold bind at 1.
  destruct (0 <? num_samples opts)%N eqn:Hns.
  - unfold bind at 1, set_self at 1. unfold bind at 1.
    destruct (create_directories_run bs
                (with_self (with_fs σ (ensure [] aux (fs σ))) (with_bsPath (self σ) bs)))
      as [b2 ->].
    { simpl. now apply creatable_ensure. }
    unfold gzip_open, gzip_close.
    destruct (transcripts e) as [|t ts] eqn:Hts.
    + change (length (@nil (Transcript A)) =? 0)%nat with true. cbv iota.
      rewrite (open_close_bind (fun x => Gzip 6 (Text x)) "" (bs ++ ["names.tsv.gz"])
                 (fun os => os) "" (ret (Some false)));
        [reflexivity|reflexivity|now intros].
    + change (length (t :: ts) =? 0)%nat with false. cbv iota.
      erewrite (open_close_bind (fun x => Gzip 6 (Text x)) "" (bs ++ ["names.tsv.gz"])
                  _ (names_line (map RefName (t :: ts))) (ret None)).
      * unfold ret at 1. cbv beta iota. rewrite Hrest. reflexivity.
      * intros os. cbv beta. rewrite names_loop_all. reflexivity.
      * intros os Hb. cbv beta. rewrite names_loop_all.
        unfold names_line, put_chars, put; simpl buf. now rewrite Hb.
  - unfold ret at 1. cbv beta iota. rewrite Hrest. reflexivity.
Qed.

Hint Rewrite is_dir_store can_open_store : files.

Lemma is_dir_artifacts opts (e : Experiment A FLD) tstring fldSamples aux m q :
  is_dir (meta_artifacts version opts e tstring fldSamples aux m) q = is_dir m q.
Proof.
  unfold meta_artifacts.
  destruct (biasCorrect opts), (gcBiasCorrect opts); now autorewrite with files.
Qed.

Lemma lookup_artifacts_manifest opts (e : Experiment A FLD) tstring fldSamples aux m :
  can_open m (aux ++ ["meta_info.json"]) = true ->
  meta_artifacts version opts e tstring fldSamples aux m !! (aux ++ ["meta_info.json"])
  = Some (File (Json (manifest version opts e tstring (N.of_nat (length fldSamples))))).
Proof.
  intros Ho. unfold meta_artifacts. apply lookup_store_eq.
  destruct (biasCorrect opts), (gcBiasCorrect opts); now autorewrite with files.
Qed.

(** The artifacts are all files directly in [aux], none called
    [bootstrap]. *)
Lemma lookup_artifacts_frame opts (e : Experiment A FLD) tstring fldSamples aux m q :
  (forall f : string, f ≠ "bootstrap" -> q ≠ aux ++ [f]) ->
  meta_artifacts version opts e tstring fldSamples aux m !! q = m !! q.
Proof.
  intros Hq. unfold meta_artifacts.
  destruct (biasCorrect opts), (gcBiasCorrect opts);
    rewrite !lookup_store_ne; auto;
    intros E; symmetry in E; revert E; apply Hq; discriminate.
Qed.

Lemma below_not_sibling aux q (f : string) :
  (aux ++ ["bootstrap"]) `prefix_of` q -> f ≠ "bootstrap" -> q ≠ aux ++ [f].
Proof.
  intros [k ->] Hf E. rewrite <- app_assoc in E. apply app_inv_head in E.
  simpl in E. congruence.
Qed.

Lemma below_not_prefix aux q (f : string) :
  (aux ++ [f]) `prefix_of` q -> ~ q `prefix_of` aux.
Proof.
  intros [k ->] Hp. apply prefix_length in Hp.
  rewrite !length_app in Hp. simpl in Hp. lia.
Qed.

Lemma sibling_not_prefix aux (f g : string) :
  f ≠ g -> ~ (aux ++ [f]) `prefix_of` (aux ++ [g]).
Proof.
  intros Hfg [k E]. rewrite <- app_assoc in E. apply app_inv_head in E.
  simpl in E. congruence.
Qed.

(** The directories in place, a file directly in [aux] can be opened
    unless a directory sits at its path. *)
Lemma can_open_in_aux m aux (f : string) :
  creatable [] aux m = true -> f ≠ "bootstrap" ->
  is_dir m (aux ++ [f]) = false ->
  can_open (ensure [] aux m) (aux ++ [f]) = true
  /\ can_open (ensure [] (aux ++ ["bootstrap"]) (ensure [] aux m)) (aux ++ [f]) = true.
Proof.
  intros Hc Hf Hd. split; [now apply can_open_after_ensure|].
  apply can_open_child.
  - apply is_dir_ensure_mono. now apply (is_dir_ensure [] aux m).
  - rewrite !is_dir_ensure_frame; [assumption| |].
    + apply (below_not_prefix aux _ f). reflexivity.
    + now apply sibling_not_prefix.
Qed.

Lemma can_open_names m aux :
  creatable [] (aux ++ ["bootstrap"]) m = true ->
  is_dir m ((aux ++ ["bootstrap"]) ++ ["names.tsv.gz"]) = false ->
  can_open (ensure [] (aux ++ ["bootstrap"]) (ensure [] aux m))
           ((aux ++ ["bootstrap"]) ++ ["names.tsv.gz"]) = true.
Proof.
  intros Hc Hd. apply can_open_child.
  - apply (is_dir_ensure [] (aux ++ ["bootstrap"])); [|reflexivity].
    now apply creatable_ensure.
  - rewrite !is_dir_ensure_frame; [assumption| |].
    + intros Hp. apply prefix_length in Hp. rewrite !length_app in Hp.
      simpl in Hp. lia.
    + apply prefix_snoc_not.
Qed.

(** Without samples, nothing at or below [bootstrap/] is touched. *)
Lemma writeMeta_no_samples opts tstring σ :
  (0 <? num_samples opts)%N = false ->
  creatable [] (bootstrap_dir σ opts) (fs σ) = true ->
  exists σ',
    writeMeta samplesFromLogPMF version opts tstring σ = Returned true σ'
    /\ fs σ'
       = meta_artifacts version opts (experiment σ) tstring
           (samplesFromLogPMF (fragmentLengthDistribution (experiment σ)) 10000)
           (aux_dir σ opts) (ensure [] (aux_dir σ opts) (fs σ))
    /\ forall q, bootstrap_dir σ opts `prefix_of` q -> fs σ' !! q = fs σ !! q.
Proof.
  intros Hns Hc. rewrite (writeMeta_run opts tstring σ Hc), Hns.
  eexists; split; [reflexivity|]. split; [reflexivity|].
  intros q Hq. simpl. rewrite lookup_artifacts_frame.
  - apply ensure_lookup_frame. now apply (below_not_prefix _ _ "bootstrap").
  - intros f Hf. now apply below_not_sibling.
Qed.

(** C1, as the code has it. With no transcript, [writeMeta] returns false
    exactly when [num_samples > 0]: it has then set the bootstrap path,
    created the aux and bootstrap directories and opened
    [names.tsv.gz], which is left with an empty payload, and it writes
    nothing else. With [num_samples = 0] it returns true and touches
    nothing at or below [bootstrap/]. *)
Theorem C1_empty_experiment opts tstring σ :
  transcripts (experiment σ) = [] ->
  creatable [] (bootstrap_dir σ opts) (fs σ) = true ->
  if (0 <? num_samples opts)%N
  then writeMeta samplesFromLogPMF version opts tstring σ
       = Returned false
           (with_fs (with_self σ (with_bsPath (self σ) (bootstrap_dir σ opts)))
              (store (bootstrap_dir σ opts ++ ["names.tsv.gz"]) (Gzip 6 (Text ""))
                 (ensure [] (bootstrap_dir σ opts)
                    (ensure [] (aux_dir σ opts) (fs σ)))))
  else exists σ',
         writeMeta samplesFromLogPMF version opts tstring σ = Returned true σ'
         /\ forall q, bootstrap_dir σ opts `prefix_of` q -> fs σ' !! q = fs σ !! q.
Proof.
  intros Hts Hc. destruct (0 <? num_samples opts)%N eqn:Hns.
  - rewrite (writeMeta_run opts tstring σ Hc), Hns. cbv zeta. now rewrite Hts.
  - destruct (writeMeta_no_samples opts tstring σ Hns Hc) as (σ' & Hr & _ & Hq).
    eauto.
Qed.

(** C5. [num_samples] is [numBootstraps] if that is positive and
    [numGibbsSamples] otherwise. Exactly when it is positive the call
    creates the bootstrap directory and [names.tsv.gz] in it (holding the
    line of names when there is a transcript); otherwise nothing at or
    below [bootstrap/] changes. The manifest, written whenever the call
    returns true, has [samp_type] "bootstrap", "gibbs" or "none" by the
    two counts and carries [num_samples] as [num_bootstraps]. The call
    returns false only for samples without transcripts. *)
Theorem C5_samples_and_label opts tstring σ :
  let aux := aux_dir σ opts in
  let bs := bootstrap_dir σ opts in
  creatable [] bs (fs σ) = true ->
  is_dir (fs σ) (bs ++ ["names.tsv.gz"]) = false ->
  is_dir (fs σ) (aux ++ ["meta_info.json"]) = false ->
  exists b σ',
    writeMeta samplesFromLogPMF version opts tstring σ = Returned b σ'
    /\ (if (0 <? num_samples opts)%N
        then is_dir (fs σ') bs = true
             /\ exists c,
                  fs σ' !! (bs ++ ["names.tsv.gz"]) = Some (File (Gzip 6 (Text c)))
                  /\ (transcripts (experiment σ) ≠ [] ->
                      c = names_line (map RefName (transcripts (experiment σ))))
        else forall q, bs `prefix_of` q -> fs σ' !! q = fs σ !! q)
    /\ (b = true ->
        exists o,
          fs σ' !! (aux ++ ["meta_info.json"]) = Some (File (Json o))
          /\ field o "samp_type" = Some (JStr (samp_type opts))
          /\ field o "num_bootstraps" = Some (JUInt (num_samples opts)))
    /\ (b = false <->
        (0 <? num_samples opts)%N = true /\ transcripts (experiment σ) = []).
Proof.
  intros aux bs Hc Hn Hi.
  assert (Haux : creatable [] aux (fs σ) = true) by (apply (creatable_app _ _ _ _ Hc)).
  destruct (can_open_in_aux (fs σ) aux "meta_info.json" Haux) as [Ho1 Ho2];
    [discriminate|assumption|].
  pose proof (can_open_names (fs σ) aux Hc Hn) as Hon.
  destruct (0 <? num_samples opts)%N eqn:Hns.
  - rewrite (writeMeta_run opts tstring σ Hc), Hns. cbv zeta.
    fold aux. fold bs. simpl fs.
    assert (Hbs : is_dir (ensure [] bs (ensure [] aux (fs σ))) bs = true).
    { apply (is_dir_ensure [] bs); [|reflexivity]. now apply creatable_ensure. }
    destruct (transcripts (experiment σ)) as [|t ts] eqn:Hts.
    + eexists; eexists; split; [reflexivity|]. simpl fs.
      split; [split|split].
      * now rewrite is_dir_store.
      * eexists; split; [now apply lookup_store_eq|]. congruence.
      * discriminate.
      * split; auto.
    + eexists; eexists; split; [reflexivity|]. simpl fs.
      split; [split|split].
      * now rewrite is_dir_artifacts, is_dir_store.
      * eexists; split; [|reflexivity].
        rewrite lookup_artifacts_frame.
        -- now apply lookup_store_eq.
        -- intros f _ E. apply (f_equal length) in E.
           unfold bs, aux, bootstrap_dir in E. rewrite !length_app in E.
           simpl in E. lia.
      * intros _. eexists; split;
          [apply lookup_artifacts_manifest; now rewrite can_open_store
          |split; reflexivity].
      * split; [discriminate|]. intros [_ ?]; discriminate.
  - destruct (writeMeta_no_samples opts tstring σ Hns Hc) as (σ' & Hr & Hfs & Hq).
    exists true, σ'. split; [assumption|]. split; [assumption|]. split.
    + intros _. eexists; split;
        [rewrite Hfs; now apply lookup_artifacts_manifest|split; reflexivity].
    + split; [discriminate|]. intros [? _]; discriminate.
Qed.

(** C9. With at least one transcript, [meta_info.json] holds exactly the
    sixteen keys of section 4.3 in that order; [call] is "quant",
    [percent_mapped] is [effectiveMappingRate * 100], [num_targets] is the
    number of transcripts, and [frag_dist_length] is 10000, the sampler
    returning as many samples as it is asked for. *)
Theorem C9_manifest opts tstring σ :
  produces_n_samples samplesFromLogPMF ->
  transcripts (experiment σ) ≠ [] ->
  creatable [] (bootstrap_dir σ opts) (fs σ) = true ->
  is_dir (fs σ) (aux_dir σ opts ++ ["meta_info.json"]) = false ->
  exists σ' o,
    writeMeta samplesFromLogPMF version opts tstring σ = Returned true σ'
    /\ fs σ' !! (aux_dir σ opts ++ ["meta_info.json"]) = Some (File (Json o))
    /\ map fst o = manifest_keys
    /\ field o "call" = Some (JStr "quant")
    /\ field o "percent_mapped"
       = Some (JDbl (mul (effectiveMappingRate (experiment σ)) (of_N 100)))
    /\ field o "num_targets"
       = Some (JUInt (N.of_nat (length (transcripts (experiment σ)))))
    /\ field o "frag_dist_length" = Some (JUInt 10000).
Proof.
  intros Hlen Hts Hc Hi.
  assert (Haux : creatable [] (aux_dir σ opts) (fs σ) = true)
    by (apply (creatable_app _ _ _ _ Hc)).
  destruct (can_open_in_aux (fs σ) (aux_dir σ opts) "meta_info.json" Haux)
    as [Ho1 Ho2]; [discriminate|assumption|].
  assert (Hfield :
    forall n : N,
      field (manifest version opts (experiment σ) tstring
               (N.of_nat (length (samplesFromLogPMF
                                    (fragmentLengthDistribution (experiment σ)) n))))
            "frag_dist_length" = Some (JUInt n)).
  { intros n. rewrite Hlen, N2Nat.id. reflexivity. }
  rewrite (writeMeta_run opts tstring σ Hc). cbv zeta.
  destruct (0 <? num_samples opts)%N.
  - destruct (transcripts (experiment σ)) as [|t ts] eqn:E; [congruence|].
    eexists; eexists; split; [reflexivity|]. simpl fs.
    split; [apply lookup_artifacts_manifest; now rewrite can_open_store|].
    repeat split; try reflexivity; [|apply Hfield].
    unfold manifest, field; simpl. now rewrite E.
  - eexists; eexists; split; [reflexivity|]. simpl fs.
    split; [now apply lookup_artifacts_manifest|].
    repeat split; try reflexivity. apply Hfield.
Qed.

End Properties.

(** *** The TPM column under exact arithmetic *)

Section ExactArithmetic.
Context {FLD : Type}.
Local Open Scope Q_scope.









End ExactArithmetic.

(** ** The scenarios, run *)

Import Scenario.

(** S1 and S2 over binary64: the text of [eq_classes.txt], and the 96
    bytes of four appended [double[3]] vectors once the writer is
    destroyed. *)
Example S1_eq_classes :
  file_after (writeEquivCounts (options 0 0 true) (S1 (A:=float)))
             ["out"; "aux_info"; "eq_classes.txt"]
  = Some (File (Text ("3" ++ LF ++ "2" ++ LF ++ "A" ++ LF ++ "B" ++ LF ++ "C" ++ LF
                        ++ "2" ++ TAB ++ "0" ++ TAB ++ "1" ++ TAB ++ "400" ++ LF
                        ++ "1" ++ TAB ++ "2" ++ TAB ++ "600" ++ LF))).
Proof. vm_compute. reflexivity. Qed.

Example S2_bootstraps :
  match
    (writeMeta sampler "0.6.0" (options 4 0 true) "now" ;;
     writeBootstrap [1; 2; 3]%float ;; writeBootstrap [4; 5; 6]%float ;;
     writeBootstrap [7; 8; 9]%float ;; writeBootstrap [10; 11; 12]%float ;;
     destroy) (S1 (A:=float))
  with
  | Returned _ s =>
      fs s !! ["out"; "aux_info"; "bootstrap"; "names.tsv.gz"]
      = Some (File (Gzip 6 (Text ("A" ++ TAB ++ "B" ++ TAB ++ "C" ++ LF))))
      /\ fs s !! ["out"; "aux_info"; "bootstrap"; "bootstraps.gz"]
         = Some (File (Gzip 6 (Binary (data [1; 2; 3; 4; 5; 6; 7; 8; 9; 10; 11; 12]%float))))
      /\ length (data [1; 2; 3; 4; 5; 6; 7; 8; 9; 10; 11; 12]%float) = 96
      /\ numBootstrapsWritten_ (self s) = 4%N
  | _ => False
  end.
Proof. vm_compute. repeat split; reflexivity. Qed.

(** S1 over binary64: the TPM column adds up to [10^6] only up to
    rounding. *)
Example S1_tpm_sum_binary64 :
  (file_after (writeAbundances (options 0 0 true) (S1 (A:=float))) ["out"; "quant.sf"]
     ≫= fun n => match n with
                  | File (Formatted calls) => Some (Sigma (TPM_column calls))
                  | _ => None
                  end)
  = Some 0x1.e848000000001p+19%float.
Proof. vm_compute. reflexivity. Qed.

(** *** Counterexamples *)

(** C1 fails on the code. With no transcript and four bootstraps the
    call returns false, but [names.tsv.gz], absent before, is there
    afterwards (with an empty payload); and with no samples asked for, the
    call on the same experiment returns true. *)
Lemma C1_counterexample :
  (result (writeMeta sampler "0.6.0" (options 4 0 true) "now" (S6 (A:=float)))
   = Some false
   /\ fs (S6 (A:=float)) !! ["out"; "aux_info"; "bootstrap"; "names.tsv.gz"] = None
   /\ file_after (writeMeta sampler "0.6.0" (options 4 0 true) "now" (S6 (A:=float)))
                 ["out"; "aux_info"; "bootstrap"; "names.tsv.gz"]
      = Some (File (Gzip 6 (Text ""))))
  /\ result (writeMeta sampler "0.6.0" (options 0 0 true) "now" (S6 (A:=float)))
     = Some true.
Proof. vm_compute. repeat split; reflexivity. Qed.


(** C7 fails on the code. A directory sits at [eq_classes.txt], so the
    stream cannot be opened and nothing is written, and the call returns
    true all the same. *)
Lemma C7_counterexample :
  can_open (ensure [] ["out"; "aux_info"] (fs (blocked (A:=float))))
           ["out"; "aux_info"; "eq_classes.txt"] = false
  /\ result (writeEquivCounts (options 0 0 true) (blocked (A:=float))) = Some true
  /\ file_after (writeEquivCounts (options 0 0 true) (blocked (A:=float)))
                ["out"; "aux_info"; "eq_classes.txt"]
     = Some Dir.
Proof. vm_compute. repeat split; reflexivity. Qed.

(** *** The theorems at the scenarios *)

(** C1 at S6 with four bootstraps: false is returned and no manifest
    written. *)
Lemma C1_witness :
  transcripts (experiment (S6 (A:=float))) = []
  /\ creatable [] (bootstrap_dir (S6 (A:=float)) (options 4 0 true)) (fs S6) = true
  /\ result (writeMeta sampler "0.6.0" (options 4 0 true) "now" (S6 (A:=float)))
     = Some false
  /\ file_after (writeMeta sampler "0.6.0" (options 4 0 true) "now" (S6 (A:=float)))
                ["out"; "aux_info"; "meta_info.json"] = None.
Proof.
  assert (H1 : transcripts (experiment (S6 (A:=float))) = []) by reflexivity.
  assert (H2 : creatable [] (bootstrap_dir (S6 (A:=float)) (options 4 0 true)) (fs S6)
               = true) by (vm_compute; reflexivity).
  split; [exact H1|]. split; [exact H2|].
  pose proof (C1_empty_experiment (A:=float) sampler "0.6.0" (options 4 0 true) "now"
                S6 H1 H2)
    as Hw.
  change (0 <? num_samples (options 4 0 true))%N with true in Hw. cbv iota in Hw.
  rewrite Hw. split; [reflexivity|]. vm_compute. reflexivity.
Defined.


(** C3 at S1 over binary64: the NumReads column. *)
Lemma C3_witness :
  can_open (fs (S1 (A:=float))) (path_ (self (S1 (A:=float))) ++ ["quant.sf"]) = true
  /\ exists calls,
       file_after (writeAbundances (options 0 0 true) (S1 (A:=float)))
                  ["out"; "quant.sf"]
       = Some (File (Formatted calls))
       /\ NumReads_column calls = [100; 300; 600]%float.
Proof.
  assert (H1 : can_open (fs (S1 (A:=float)))
                 (path_ (self (S1 (A:=float))) ++ ["quant.sf"]) = true)
    by (vm_compute; reflexivity).
  split; [exact H1|].
  destruct (C3_projected_counts (A:=float) (options 0 0 true) S1 H1)
    as (σ' & calls & Hr & Hts & Hf & _ & Hcol).
  exists calls. split; [rewrite Hr; exact Hf|].
  rewrite Hcol, Hts. vm_compute. reflexivity.
Defined.

(** C4 at S1 over binary64: the header, and the row of transcript B. *)
Lemma C4_witness :
  can_open (fs (S1 (A:=float))) (path_ (self (S1 (A:=float))) ++ ["quant.sf"]) = true
  /\ exists calls,
       file_after (writeAbundances (options 0 0 true) (S1 (A:=float)))
                  ["out"; "quant.sf"]
       = Some (File (Formatted calls))
       /\ calls !! 0%nat = Some (Print quant_header [])
       /\ calls !! 2%nat
          = Some (quant_line "B" 200 180 (300 / 1000 / 180 / (0 + 100 / 1000 / 80
                                           + 300 / 1000 / 180 + 600 / 1000 / 280)
                                           * 1000000) 300)%float.
Proof.
  assert (H1 : can_open (fs (S1 (A:=float)))
                 (path_ (self (S1 (A:=float))) ++ ["quant.sf"]) = true)
    by (vm_compute; reflexivity).
  split; [exact H1|].
  destruct (C4_tpm_rule (A:=float) (options 0 0 true) S1 H1) as (σ' & Hr & Hf).
  eexists. split; [rewrite Hr; exact Hf|].
  rewrite writeAbundances_run, H1 in Hr. injection Hr as <-.
  split; vm_compute; reflexivity.
Defined.

(** C5 at S3 (500 Gibbs samples): the names and the manifest's label. *)
Lemma C5_witness :
  creatable [] (bootstrap_dir (S1 (A:=float)) (options 0 500 true)) (fs S1) = true
  /\ is_dir (fs (S1 (A:=float)))
            (bootstrap_dir (S1 (A:=float)) (options 0 500 true) ++ ["names.tsv.gz"])
     = false
  /\ is_dir (fs (S1 (A:=float)))
            (aux_dir (S1 (A:=float)) (options 0 500 true) ++ ["meta_info.json"])
     = false
  /\ result (writeMeta sampler "0.6.0" (options 0 500 true) "now" (S1 (A:=float)))
     = Some true
  /\ file_after (writeMeta sampler "0.6.0" (options 0 500 true) "now" (S1 (A:=float)))
                ["out"; "aux_info"; "bootstrap"; "names.tsv.gz"]
     = Some (File (Gzip 6 (Text ("A" ++ TAB ++ "B" ++ TAB ++ "C" ++ LF))))
  /\ exists o,
       file_after (writeMeta sampler "0.6.0" (options 0 500 true) "now" (S1 (A:=float)))
                  ["out"; "aux_info"; "meta_info.json"]
       = Some (File (Json o))
       /\ field o "samp_type" = Some (JStr "gibbs")
       /\ field o "num_bootstraps" = Some (JUInt 500).
Proof.
  assert (H1 : creatable [] (bootstrap_dir (S1 (A:=float)) (options 0 500 true)) (fs S1)
               = true) by (vm_compute; reflexivity).
  assert (H2 : is_dir (fs (S1 (A:=float)))
                 (bootstrap_dir (S1 (A:=float)) (options 0 500 true) ++ ["names.tsv.gz"])
               = false) by (vm_compute; reflexivity).
  assert (H3 : is_dir (fs (S1 (A:=float)))
                 (aux_dir (S1 (A:=float)) (options 0 500 true) ++ ["meta_info.json"])
               = false) by (vm_compute; reflexivity).
  split; [exact H1|]. split; [exact H2|]. split; [exact H3|].
  destruct (C5_samples_and_label (A:=float) sampler "0.6.0" (options 0 500 true) "now"
              S1 H1 H2 H3)
    as (b & σ' & Hr & Hbs & Hjson & Hb).
  destruct b.
  - rewrite Hr. split; [reflexivity|].
    change (0 <? num_samples (options 0 500 true))%N with true in Hbs.
    cbv iota in Hbs. destruct Hbs as (_ & c & Hc & Hline).
    split.
    + simpl file_after. change (bootstrap_dir S1 (options 0 500 true) ++ ["names.tsv.gz"])
        with ["out"; "aux_info"; "bootstrap"; "names.tsv.gz"] in Hc.
      rewrite Hc, Hline; [reflexivity|discriminate].
    + destruct (Hjson eq_refl) as (o & Ho & Hs & Hn). exists o.
      split; [exact Ho|]. split; [exact Hs|exact Hn].
  - destruct Hb as [Hb _]. destruct (Hb eq_refl) as [_ Hts]. discriminate Hts.
Defined.

(** C6 at S1. *)
Lemma C6_witness :
  creatable [] (aux_dir (S1 (A:=float)) (options 0 0 true)) (fs S1) = true
  /\ is_dir (fs (S1 (A:=float)))
            (aux_dir (S1 (A:=float)) (options 0 0 true) ++ ["eq_classes.txt"]) = false
  /\ file_after (writeEquivCounts (options 0 0 true) (S1 (A:=float)))
                ["out"; "aux_info"; "eq_classes.txt"]
     = Some (File (Text (eq_classes_layout ["A"; "B"; "C"]
                           [(2%N, [0; 1]%N, 400%N); (1%N, [2%N], 600%N)]))).
Proof.
  assert (H1 : creatable [] (aux_dir (S1 (A:=float)) (options 0 0 true)) (fs S1) = true)
    by (vm_compute; reflexivity).
  assert (H2 : is_dir (fs (S1 (A:=float)))
                 (aux_dir (S1 (A:=float)) (options 0 0 true) ++ ["eq_classes.txt"])
               = false) by (vm_compute; reflexivity).
  split; [exact H1|]. split; [exact H2|].
  destruct (C6_eq_classes_layout (A:=float) (options 0 0 true) S1 H1 H2)
    as (σ' & Hr & Hf).
  rewrite Hr. exact Hf.
Defined.

(** C9 at S1, the sampler returning [n] zeros. *)
Lemma C9_witness :
  produces_n_samples sampler
  /\ transcripts (experiment (S1 (A:=float))) ≠ []
  /\ creatable [] (bootstrap_dir (S1 (A:=float)) (options 0 0 true)) (fs S1) = true
  /\ is_dir (fs (S1 (A:=float)))
            (aux_dir (S1 (A:=float)) (options 0 0 true) ++ ["meta_info.json"]) = false
  /\ result (writeMeta sampler "0.6.0" (options 0 0 true) "now" (S1 (A:=float)))
     = Some true
  /\ exists o,
       file_after (writeMeta sampler "0.6.0" (options 0 0 true) "now" (S1 (A:=float)))
                  ["out"; "aux_info"; "meta_info.json"]
       = Some (File (Json o))
       /\ map fst o = manifest_keys
       /\ field o "call" = Some (JStr "quant")
       /\ field o "num_targets" = Some (JUInt 3)
       /\ field o "frag_dist_length" = Some (JUInt 10000).
Proof.
  assert (H0 : produces_n_samples sampler) by (intros d n; apply repeat_length).
  assert (H1 : transcripts (experiment (S1 (A:=float))) ≠ []) by discriminate.
  assert (H2 : creatable [] (bootstrap_dir (S1 (A:=float)) (options 0 0 true)) (fs S1)
               = true) by (vm_compute; reflexivity).
  assert (H3 : is_dir (fs (S1 (A:=float)))
                 (aux_dir (S1 (A:=float)) (options 0 0 true) ++ ["meta_info.json"])
               = false) by (vm_compute; reflexivity).
  split; [exact H0|]. split; [exact H1|]. split; [exact H2|]. split; [exact H3|].
  destruct (C9_manifest (A:=float) sampler "0.6.0" (options 0 0 true) "now"
              S1 H0 H1 H2 H3)
    as (σ' & o & Hr & Ho & Hk & Hcall & _ & Hn & Hfld).
  rewrite Hr. split; [reflexivity|].
  exists o. split; [exact Ho|]. split; [exact Hk|]. split; [exact Hcall|].
  split; [exact Hn|exact Hfld].
Defined.

(** ** Further properties of the writer *)

Section Coverage.
Context {A FLD : Type} `{Arith A} `{Element A}.
Variable samplesFromLogPMF : FLD -> N -> list int32.
Variable version : string.

Implicit Types (m : gmap path (node A)) (p q base rest : path).
Implicit Types (σ : @State A FLD) (opts sopt : SalmonOpts).

Notation "os << s" := (put_chars os s) (at level 40, left associativity).

(** *** Every way [writeMeta] can end *)

Lemma writeMeta_outcome opts tstring σ :
  let aux := aux_dir σ opts in
  let bs := bootstrap_dir σ opts in
  let e := experiment σ in
  let fldSamples := samplesFromLogPMF (fragmentLengthDistribution e) 10000 in
  let artifacts := meta_artifacts version opts e tstring fldSamples aux in
  writeMeta samplesFromLogPMF version opts tstring σ
  = match mkdirs [] aux (fs σ) with
    | (None, m1) => Threw (with_fs σ m1)
    | (Some _, m1) =>
        if (0 <? num_samples opts)%N then
          let σ1 := with_self σ (with_bsPath (self σ) bs) in
          match mkdirs [] bs m1 with
          | (None, m2) => Threw (with_fs σ1 m2)
          | (Some _, m2) =>
              match transcripts e with
              | [] =>
                  Returned false
                    (with_fs σ1 (store (bs ++ ["names.tsv.gz"]) (Gzip 6 (Text "")) m2))
              | _ =>
                  Returned true
                    (with_fs σ1
                       (artifacts
                          (store (bs ++ ["names.tsv.gz"])
                             (Gzip 6 (Text (names_line (map RefName (transcripts e)))))
                             m2)))
              end
          end
        else Returned true (with_fs σ (artifacts m1))
    end.
Proof.
  intros aux bs e fldSamples artifacts.
  unfold writeMeta.
  unfold bind at 1, get_self. unfold bind at 1, get_experiment.
  unfold bind at 1. change (path_ (self σ) ++ auxDir opts) with aux.
  unfold create_directories at 1. unfold bind at 1, get_fs.
  destruct (mkdirs [] aux (fs σ)) as [[b1|] m1]; [|reflexivity].
  unfold bind at 1, set_fs at 1, ret at 1.
  cbv zeta.
  change (if (0 <? numBootstraps opts)%N then numBootstraps opts
          else numGibbsSamples opts) with (num_samples opts).
  change (aux ++ ["bootstrap"]) with bs.
  change (experiment σ) with e.
  change (samplesFromLogPMF (fragmentLengthDistribution e) 10000) with fldSamples.
  match goal with
  | |- context [match _ with Some b => ret b | None => ?rest end] =>
      assert (Hrest : forall s, rest s = Returned true (with_fs s (artifacts (fs s))))
  end.
  { assert (Hjson : forall s0 : @State A FLD,
              (oa <- open Json [] (aux ++ ["meta_info.json"]) ;;
               close Json
                 (nvp (nvp (nvp (nvp (nvp (nvp (nvp (nvp (nvp (nvp (nvp (nvp (nvp
                   (nvp (nvp (nvp oa
                     "salmon_version" (JStr version))
                     "samp_type"
                       (JStr (if (0 <? numBootstraps opts)%N then "bootstrap"
                              else if (numBootstraps opts =? 0)%N
                                      && (0 <? num_samples opts)%N
                                   then "gibbs" else "none")))
                     "num_libraries" (JUInt (N.of_nat (length (getLibTypeStrings e)))))
                     "library_types" (JStrings (getLibTypeStrings e)))
                     "frag_dist_length" (JUInt (N.of_nat (length fldSamples))))
                     "seq_bias_correct" (JBool (biasCorrect opts)))
                     "gc_bias_correct" (JBool (gcBiasCorrect opts)))
                     "num_bias_bins"
                       (JUInt (N.of_nat (length (counts (readBias e FORWARD))))))
                     "mapping_type"
                       (JStr (if alnMode opts then "alignment" else "mapping")))
                     "num_targets" (JUInt (N.of_nat (length (transcripts e)))))
                     "num_bootstraps" (JUInt (num_samples opts)))
                     "num_processed" (JUInt (numObservedFragments e)))
                     "num_mapped" (JUInt (numMappedFragments e)))
                     "percent_mapped"
                       (JDbl (mul (effectiveMappingRate e) (of_N 100))))
                     "call" (JStr "quant"))
                     "start_time" (JStr tstring)) ;;
               ret true) s0
              = Returned true
                  (with_fs s0
                     (store (aux ++ ["meta_info.json"])
                        (Json (manifest version opts e tstring
                                 (N.of_nat (length fldSamples))))
                        (fs s0)))).
    { intros s0.
      apply (open_close_bind Json [] (aux ++ ["meta_info.json"]) _
               (manifest version opts e tstring (N.of_nat (length fldSamples)))
               (ret true) s0); [reflexivity|].
      intros os Hb. unfold nvp, put; simpl. rewrite Hb; simpl.
      unfold manifest. now rewrite sampType_samp_type. }
    intros s. rewrite !writeVectorToFile_bind.
    rewrite !fs_with_fs, !with_fs_with_fs.
    unfold artifacts, meta_artifacts.
    unfold bind at 1.
    destruct (biasCorrect opts);
      [rewrite !dump_model_bind, dump_model_run | unfold ret at 1];
      cbv beta iota; unfold bind at 1;
      (destruct (gcBiasCorrect opts);
       [rewrite dump_model_bind, dump_model_run | unfold ret at 1]);
      cbv beta iota; rewrite Hjson;
      rewrite ?fs_with_fs, ?with_fs_with_fs; reflexivity. }
  unfold bind at 1.
  destruct (0 <? num_samples opts)%N eqn:Hns.
  - unfold bind at 1, set_self at 1. unfold bind at 1.
    unfold create_directories at 1. unfold bind at 1, get_fs.
    change (fs (with_self (with_fs σ m1) (with_bsPath (self σ) bs))) with m1.
    destruct (mkdirs [] bs m1) as [[b2|] m2]; [|reflexivity].
    unfold bind at 1, set_fs at 1, ret at 1.
    unfold gzip_open, gzip_close.
    destruct (transcripts e) as [|t ts] eqn:Hts.
    + change (length (@nil (Transcript A)) =? 0)%nat with true. cbv iota.
      rewrite (open_close_bind (fun x => Gzip 6 (Text x)) "" (bs ++ ["names.tsv.gz"])
                 (fun os => os) "" (ret (Some false)));
        [reflexivity|reflexivity|now intros].
    + change (length (t :: ts) =? 0)%nat with false. cbv iota.
      erewrite (open_close_bind (fun x => Gzip 6 (Text x)) "" (bs ++ ["names.tsv.gz"])
                  _ (names_line (map RefName (t :: ts))) (ret None)).
      * unfold ret at 1. cbv beta iota. rewrite Hrest. reflexivity.
      * intros os. cbv beta. rewrite names_loop_all. reflexivity.
      * intros os Hb. cbv beta. rewrite names_loop_all.
        unfold names_line, put_chars, put; simpl buf. now rewrite Hb.
  - unfold ret at 1. cbv beta iota. rewrite Hrest. reflexivity.
Qed.

(** *** Directories, once more *)

Lemma mkdirs_lookup_cases base rest m r m' q :
  mkdirs base rest m = (r, m') ->
  m' !! q = m !! q
  \/ (m !! q = None /\ m' !! q = Some Dir /\ q `prefix_of` base ++ rest).
Proof.
  revert base m r m'; induction rest as [|c rest IH]; intros base m r m' Hm.
  - simpl in Hm. injection Hm as <- <-. now left.
  - simpl in Hm. destruct (m !! (base ++ [c])) as [[|?]|] eqn:Hd.
    + destruct (IH _ _ _ _ Hm) as [->|(? & ? & Hp)]; [now left|right].
      rewrite <- app_assoc in Hp. auto.
    + injection Hm as <- <-. now left.
    + destruct (mkdirs (base ++ [c]) rest (<[base ++ [c]:=Dir]> m)) as [r1 m1] eqn:H1.
      assert (m' = m1) as -> by (destruct r1; now injection Hm).
      destruct (IH _ _ _ _ H1) as [Heq|(Hn & Hs & Hp)].
      * rewrite Heq. destruct (decide (base ++ [c] = q)) as [<-|Hne].
        -- right. rewrite lookup_insert_eq. repeat split; auto.
           exists rest. now rewrite <- app_assoc.
        -- left. now apply lookup_insert_ne.
      * rewrite <- app_assoc in Hp. right. repeat split; auto.
        destruct (decide (base ++ [c] = q)) as [<-|Hne].
        -- now rewrite lookup_insert_eq in Hn.
        -- now rewrite lookup_insert_ne in Hn.
Qed.

Lemma creatable_ensure_eq base rest base' rest' m :
  creatable base rest (ensure base' rest' m) = creatable base rest m.
Proof.
  revert base; induction rest as [|c rest IH]; intros base; [reflexivity|].
  simpl. destruct (ensure_lookup_cases base' rest' m (base ++ [c])) as [->|(-> & -> & _)].
  - destruct (m !! (base ++ [c])) as [[|?]|]; auto.
  - auto.
Qed.

(** *** Files stored in one directory *)

Lemma is_dir_store_all dir (l : list (string * content A)) m q :
  is_dir (store_all dir l m) q = is_dir m q.
Proof.
  unfold store_all. revert m; induction l as [|fc l IH]; intros m; [reflexivity|].
  simpl. now rewrite IH, is_dir_store.
Qed.

Lemma can_open_store_all dir (l : list (string * content A)) m q :
  can_open (store_all dir l m) q = can_open m q.
Proof. unfold can_open. now rewrite !is_dir_store_all. Qed.

Lemma lookup_store_all_frame dir (l : list (string * content A)) m q :
  (forall f, In f (map fst l) -> q ≠ dir ++ [f]) ->
  store_all dir l m !! q = m !! q.
Proof.
  unfold store_all. revert m; induction l as [|fc l IH]; intros m Hq; [reflexivity|].
  simpl. rewrite IH.
  - apply lookup_store_ne. intros E. apply (Hq (fst fc)); [now left|now symmetry].
  - intros f Hf. apply Hq. now right.
Qed.

Lemma lookup_store_all_in dir (l : list (string * content A)) m f c :
  List.NoDup (map fst l) -> In (f, c) l -> can_open m (dir ++ [f]) = true ->
  store_all dir l m !! (dir ++ [f]) = Some (File c).
Proof.
  unfold store_all. revert m; induction l as [|fc l IH]; intros m Hnd Hin Ho;
    [destruct Hin|].
  simpl in *. apply List.NoDup_cons_iff in Hnd as [Hfresh Hnd].
  destruct Hin as [->|Hin].
  - simpl. fold (store_all dir l (store (dir ++ [f]) c m)).
    rewrite lookup_store_all_frame.
    + now apply lookup_store_eq.
    + intros f' Hf' E. apply app_inv_head in E. injection E as <-. auto.
  - apply IH; auto. now rewrite can_open_store.
Qed.

Lemma meta_artifacts_store_all opts (e : Experiment A FLD) tstring fldSamples aux m :
  meta_artifacts version opts e tstring fldSamples aux m
  = store_all aux (artifact_list version opts e tstring fldSamples) m.
Proof.
  unfold meta_artifacts, artifact_list, store_all.
  now destruct (biasCorrect opts), (gcBiasCorrect opts).
Qed.

Lemma artifact_list_names opts (e : Experiment A FLD) tstring fldSamples :
  map fst (artifact_list version opts e tstring fldSamples) = artifact_names opts.
Proof.
  unfold artifact_list, artifact_names.
  now destruct (biasCorrect opts), (gcBiasCorrect opts).
Qed.

Lemma artifact_names_NoDup opts : List.NoDup (artifact_names opts).
Proof.
  unfold artifact_names.
  destruct (biasCorrect opts), (gcBiasCorrect opts); simpl;
    repeat (apply List.NoDup_cons; [simpl; intuition discriminate|]);
    apply List.NoDup_nil.
Qed.

Lemma artifact_names_not_bootstrap opts f :
  In f (artifact_names opts) -> f ≠ "bootstrap".
Proof.
  unfold artifact_names.
  destruct (biasCorrect opts), (gcBiasCorrect opts); simpl;
    intuition (subst; discriminate).
Qed.

Lemma lookup_store_cases p (c : content A) m q :
  store p c m !! q = m !! q \/ q = p.
Proof.
  destruct (decide (p = q)) as [->|Hne]; [now right|left].
  now apply lookup_store_ne.
Qed.

Lemma lookup_store_all_cases dir (l : list (string * content A)) m q :
  store_all dir l m !! q = m !! q
  \/ exists f, In f (map fst l) /\ q = dir ++ [f].
Proof.
  unfold store_all. revert m; induction l as [|fc l IH]; intros m; [now left|].
  simpl. destruct (IH (store (dir ++ [fst fc]) (snd fc) m)) as [->|(f & Hf & ->)].
  - destruct (lookup_store_cases (dir ++ [fst fc]) (snd fc) m q) as [->| ->];
      [now left|right]. exists (fst fc). auto.
  - right. exists f. auto.
Qed.

(** *** What [writeMeta] writes, and what it leaves alone *)

(** X1. Whatever way [writeMeta] ends, it leaves the experiment as it
    was, and it changes the file system at most by creating missing
    directories on the way to the bootstrap directory, at
    [bootstrap/names.tsv.gz] when samples are asked for, and at the files
    of the aux directory that its options select: the sequence-bias and
    the GC models are among these only under [biasCorrect] and
    [gcBiasCorrect]. Every other path, [eq_classes.txt] and [quant.sf]
    among them, is as before. *)
Theorem X1_writeMeta_inventory opts tstring σ :
  match writeMeta samplesFromLogPMF version opts tstring σ with
  | Returned _ σ' | Threw σ' =>
      experiment σ' = experiment σ
      /\ forall q,
           fs σ' !! q ≠ fs σ !! q ->
           (fs σ !! q = None /\ fs σ' !! q = Some Dir
            /\ q `prefix_of` bootstrap_dir σ opts)
           \/ ((0 <? num_samples opts)%N = true
               /\ q = bootstrap_dir σ opts ++ ["names.tsv.gz"])
           \/ exists f, In f (artifact_names opts) /\ q = aux_dir σ opts ++ [f]
  | Undefined => False
  end.
Proof.
  rewrite writeMeta_outcome.
  set (aux := aux_dir σ opts). set (bs := bootstrap_dir σ opts).
  set (l := artifact_list version opts (experiment σ) tstring
              (samplesFromLogPMF (fragmentLengthDistribution (experiment σ)) 10000)).
  assert (Hl : map fst l = artifact_names opts) by apply artifact_list_names.
  assert (Hdir1 : forall r m1 q, mkdirs [] aux (fs σ) = (r, m1) ->
            m1 !! q = fs σ !! q
            \/ (fs σ !! q = None /\ m1 !! q = Some Dir /\ q `prefix_of` bs)).
  { intros r m1 q Hm. destruct (mkdirs_lookup_cases _ _ _ _ _ q Hm)
      as [->|(? & ? & Hp)]; [now left|right]. repeat split; auto.
    etrans; [exact Hp|]. now exists ["bootstrap"]. }
  assert (Hdir2 : forall r1 m1 r2 m2 q,
            mkdirs [] aux (fs σ) = (r1, m1) -> mkdirs [] bs m1 = (r2, m2) ->
            m2 !! q = fs σ !! q
            \/ (fs σ !! q = None /\ m2 !! q = Some Dir /\ q `prefix_of` bs)).
  { intros r1 m1 r2 m2 q Hm1 Hm2.
    destruct (mkdirs_lookup_cases _ _ _ _ _ q Hm2) as [->|(Hn & Hd & Hp)];
      [now apply (Hdir1 r1)|].
    destruct (Hdir1 _ _ q Hm1) as [E|(? & E & _)]; [|congruence].
    right. rewrite <- E. auto. }
  destruct (mkdirs [] aux (fs σ)) as [[b1|] m1] eqn:H1.
  - destruct (0 <? num_samples opts)%N eqn:Hns.
    + cbv zeta. destruct (mkdirs [] bs m1) as [[b2|] m2] eqn:H2.
      * destruct (transcripts (experiment σ)) as [|t ts];
          (split; [reflexivity|]; intros q Hne; cbn [fs with_fs with_self] in Hne |- *).
        -- destruct (lookup_store_cases (bs ++ ["names.tsv.gz"]) (Gzip 6 (Text "")) m2 q)
             as [E| ->]; [|now right; left].
           rewrite E in *. destruct (Hdir2 _ _ _ _ q eq_refl H2) as [E2|?]; [congruence|auto].
        -- rewrite meta_artifacts_store_all in *. fold l in Hne |- *.
           destruct (lookup_store_all_cases aux l
                       (store (bs ++ ["names.tsv.gz"])
                          (Gzip 6 (Text (names_line (map RefName (t :: ts))))) m2) q)
             as [E|(f & Hf & ->)].
           2:{ right; right. exists f. rewrite Hl in Hf. split; [exact Hf|reflexivity]. }
           rewrite E in *.
           destruct (lookup_store_cases (bs ++ ["names.tsv.gz"])
                       (Gzip 6 (Text (names_line (map RefName (t :: ts))))) m2 q)
             as [E'| ->]; [|now right; left].
           rewrite E' in *. destruct (Hdir2 _ _ _ _ q eq_refl H2) as [E2|?]; [congruence|auto].
      * split; [reflexivity|]. intros q Hne; cbn [fs with_fs with_self] in Hne |- *.
        destruct (Hdir2 _ _ _ _ q eq_refl H2) as [E2|?]; [congruence|auto].
    + split; [reflexivity|]. intros q Hne; cbn [fs with_fs with_self] in Hne |- *.
      rewrite meta_artifacts_store_all in *. fold l in Hne |- *.
      destruct (lookup_store_all_cases aux l m1 q) as [E|(f & Hf & ->)].
      2:{ right; right. exists f. rewrite Hl in Hf. split; [exact Hf|reflexivity]. }
      rewrite E in *. destruct (Hdir1 _ _ q eq_refl) as [E2|?]; [congruence|auto].
  - split; [reflexivity|]. intros q Hne; cbn [fs with_fs with_self] in Hne |- *.
    destruct (Hdir1 _ _ q eq_refl) as [E2|?]; [congruence|auto].
Qed.

(** The state of the aux directory once the directories are in place. *)
Lemma can_open_artifact opts σ f :
  creatable [] (bootstrap_dir σ opts) (fs σ) = true ->
  In f (artifact_names opts) ->
  is_dir (fs σ) (aux_dir σ opts ++ [f]) = false ->
  can_open (ensure [] (aux_dir σ opts) (fs σ)) (aux_dir σ opts ++ [f]) = true
  /\ forall c,
       can_open (store (bootstrap_dir σ opts ++ ["names.tsv.gz"]) c
                   (ensure [] (bootstrap_dir σ opts)
                      (ensure [] (aux_dir σ opts) (fs σ))))
                (aux_dir σ opts ++ [f]) = true.
Proof.
  intros Hc Hf Hd.
  assert (Haux : creatable [] (aux_dir σ opts) (fs σ) = true)
    by (apply (creatable_app _ _ _ _ Hc)).
  destruct (can_open_in_aux (fs σ) (aux_dir σ opts) f Haux
              (artifact_names_not_bootstrap _ _ Hf) Hd) as [H1 H2].
  split; [exact H1|]. intros c. now rewrite can_open_store.
Qed.

(** What a successful [writeMeta] leaves in the aux directory. *)
Lemma writeMeta_stores opts tstring σ :
  creatable [] (bootstrap_dir σ opts) (fs σ) = true ->
  transcripts (experiment σ) ≠ [] ->
  exists σ',
    writeMeta samplesFromLogPMF version opts tstring σ = Returned true σ'
    /\ forall f c,
         In (f, c)
            (artifact_list version opts (experiment σ) tstring
               (samplesFromLogPMF (fragmentLengthDistribution (experiment σ)) 10000)) ->
         is_dir (fs σ) (aux_dir σ opts ++ [f]) = false ->
         fs σ' !! (aux_dir σ opts ++ [f]) = Some (File c).
Proof.
  intros Hc Hts.
  assert (Hnd : List.NoDup
                  (map fst (artifact_list version opts (experiment σ) tstring
                     (samplesFromLogPMF (fragmentLengthDistribution (experiment σ)) 10000))))
    by (rewrite artifact_list_names; apply artifact_names_NoDup).
  assert (Hopen : forall f c,
            In (f, c)
               (artifact_list version opts (experiment σ) tstring
                  (samplesFromLogPMF (fragmentLengthDistribution (experiment σ)) 10000)) ->
            is_dir (fs σ) (aux_dir σ opts ++ [f]) = false ->
            can_open (ensure [] (aux_dir σ opts) (fs σ)) (aux_dir σ opts ++ [f]) = true
            /\ forall c',
                 can_open (store (bootstrap_dir σ opts ++ ["names.tsv.gz"]) c'
                             (ensure [] (bootstrap_dir σ opts)
                                (ensure [] (aux_dir σ opts) (fs σ))))
                          (aux_dir σ opts ++ [f]) = true).
  { intros f c Hin Hd. apply can_open_artifact; [assumption| |assumption].
    rewrite <- (artifact_list_names opts (experiment σ) tstring
                  (samplesFromLogPMF (fragmentLengthDistribution (experiment σ)) 10000)).
    apply (in_map fst _ _ Hin). }
  rewrite (writeMeta_run samplesFromLogPMF version opts tstring σ Hc). cbv zeta.
  destruct (0 <? num_samples opts)%N.
  - destruct (transcripts (experiment σ)) as [|t ts] eqn:E; [congruence|].
    eexists; split; [reflexivity|]. intros f c Hin Hd.
    destruct (Hopen f c Hin Hd) as [Ho1 Ho2]. cbn [fs with_fs with_self].
    rewrite meta_artifacts_store_all. now apply lookup_store_all_in.
  - eexists; split; [reflexivity|]. intros f c Hin Hd.
    destruct (Hopen f c Hin Hd) as [Ho1 Ho2]. cbn [fs with_fs with_self].
    rewrite meta_artifacts_store_all. now apply lookup_store_all_in.
Qed.

(** X2. With at least one transcript and directories that can be
    created, [writeMeta] returns true and every file it is to write in
    the aux directory holds its content afterwards, unless a directory
    sits at its path: each vector as the raw bytes of its elements behind
    the compressor, each model as the bytes of its [writeBinary], the
    manifest as its name-value pairs.  The six model files are among them
    exactly under the bias-correction options. *)
Theorem X2_writeMeta_artifacts opts tstring σ :
  creatable [] (bootstrap_dir σ opts) (fs σ) = true ->
  transcripts (experiment σ) ≠ [] ->
  exists σ',
    writeMeta samplesFromLogPMF version opts tstring σ = Returned true σ'
    /\ forall f c,
         In (f, c)
            (artifact_list version opts (experiment σ) tstring
               (samplesFromLogPMF (fragmentLengthDistribution (experiment σ)) 10000)) ->
         is_dir (fs σ) (aux_dir σ opts ++ [f]) = false ->
         fs σ' !! (aux_dir σ opts ++ [f]) = Some (File c).
Proof. apply writeMeta_stores. Qed.

(** X4. The sizes the manifest records are those of the files beside it:
    [fld.gz] holds four bytes for each of the [frag_dist_length] samples,
    whatever number the sampler returned, and [observed_bias.gz] four
    bytes for each of the [num_bias_bins] bins; [observed_bias_3p.gz] has
    four bytes for each bin of the reverse-complement read bias, which the
    manifest does not record. *)
Theorem X4_manifest_sizes opts tstring σ :
  creatable [] (bootstrap_dir σ opts) (fs σ) = true ->
  transcripts (experiment σ) ≠ [] ->
  (forall f, In f ["fld.gz"; "observed_bias.gz"; "observed_bias_3p.gz"; "meta_info.json"] ->
             is_dir (fs σ) (aux_dir σ opts ++ [f]) = false) ->
  exists σ' o fld obs obs3 n bins,
    writeMeta samplesFromLogPMF version opts tstring σ = Returned true σ'
    /\ fs σ' !! (aux_dir σ opts ++ ["meta_info.json"]) = Some (File (Json o))
    /\ gz_payload (fs σ' !! (aux_dir σ opts ++ ["fld.gz"])) = Some fld
    /\ gz_payload (fs σ' !! (aux_dir σ opts ++ ["observed_bias.gz"])) = Some obs
    /\ gz_payload (fs σ' !! (aux_dir σ opts ++ ["observed_bias_3p.gz"])) = Some obs3
    /\ field o "frag_dist_length" = Some (JUInt n)
    /\ length fld = 4 * N.to_nat n
    /\ field o "num_bias_bins" = Some (JUInt bins)
    /\ length obs = 4 * N.to_nat bins
    /\ length obs3 = 4 * length (counts (readBias (experiment σ) REVERSE_COMPLEMENT)).
Proof.
  intros Hc Hts Hd.
  destruct (writeMeta_stores opts tstring σ Hc Hts) as (σ' & Hr & Hfiles).
  exists σ'. do 6 eexists. split; [exact Hr|].
  split.
  { apply Hfiles; [|apply Hd; simpl; tauto].
    unfold artifact_list. rewrite !in_app_iff. right; right; right. now left. }
  split.
  { rewrite (Hfiles "fld.gz" _ (or_introl eq_refl)); [reflexivity|].
    apply Hd; simpl; tauto. }
  split.
  { rewrite (Hfiles "observed_bias.gz" _ (or_intror (or_intror (or_introl eq_refl))));
      [reflexivity|].
    apply Hd; simpl; tauto. }
  split.
  { rewrite (Hfiles "observed_bias_3p.gz" _
               (or_intror (or_intror (or_intror (or_introl eq_refl)))));
      [reflexivity|].
    apply Hd; simpl; tauto. }
  split; [reflexivity|].
  split; [rewrite data_length, Nat2N.id; simpl; lia|].
  split; [reflexivity|].
  split; rewrite data_length, ?Nat2N.id, length_map; simpl; lia.
Qed.

Lemma getLibTypeStrings_map (e : Experiment A FLD) :
  getLibTypeStrings e
  = match libraries e with
    | ReadExperiment libs => map (fun rl => toString (getFormat rl)) libs
    | AlignmentLibrary f => [toString f]
    end.
Proof.
  unfold getLibTypeStrings. destruct (libraries e) as [libs|f]; [|reflexivity].
  assert (Hacc : forall acc : list string,
    fold_left (fun libStrings rl => libStrings ++ [toString (getFormat rl)]) libs acc
    = acc ++ map (fun rl => toString (getFormat rl)) libs).
  { induction libs as [|rl libs IH]; intros acc; simpl.
    - now rewrite app_nil_r.
    - rewrite IH. now rewrite <- app_assoc. }
  apply Hacc.
Qed.

(** X3. The manifest names the libraries in the order of the experiment,
    one format string per read library, or the one format of an alignment
    library, and [num_libraries] is their number; it records
    [salmon_version], the two bias flags, the mapping type ("alignment"
    under [alnMode], "mapping" otherwise), the observed and mapped
    fragment counts and the start time as they were passed in. *)
Theorem X3_manifest_fields opts tstring σ :
  creatable [] (bootstrap_dir σ opts) (fs σ) = true ->
  transcripts (experiment σ) ≠ [] ->
  is_dir (fs σ) (aux_dir σ opts ++ ["meta_info.json"]) = false ->
  exists σ' o,
    writeMeta samplesFromLogPMF version opts tstring σ = Returned true σ'
    /\ fs σ' !! (aux_dir σ opts ++ ["meta_info.json"]) = Some (File (Json o))
    /\ (exists formats,
          formats
          = match libraries (experiment σ) with
            | ReadExperiment libs => map (fun rl => toString (getFormat rl)) libs
            | AlignmentLibrary f => [toString f]
            end
          /\ field o "library_types" = Some (JStrings formats)
          /\ field o "num_libraries" = Some (JUInt (N.of_nat (length formats))))
    /\ field o "salmon_version" = Some (JStr version)
    /\ field o "seq_bias_correct" = Some (JBool (biasCorrect opts))
    /\ field o "gc_bias_correct" = Some (JBool (gcBiasCorrect opts))
    /\ field o "mapping_type"
       = Some (JStr (if alnMode opts then "alignment" else "mapping"))
    /\ field o "num_processed" = Some (JUInt (numObservedFragments (experiment σ)))
    /\ field o "num_mapped" = Some (JUInt (numMappedFragments (experiment σ)))
    /\ field o "start_time" = Some (JStr tstring).
Proof.
  intros Hc Hts Hd.
  assert (Hf : In "meta_info.json" (artifact_names opts)).
  { unfold artifact_names. rewrite !in_app_iff. right; right; right. now left. }
  destruct (can_open_artifact opts σ _ Hc Hf Hd) as [Ho1 Ho2].
  rewrite (writeMeta_run samplesFromLogPMF version opts tstring σ Hc). cbv zeta.
  assert (Hfields : forall n,
    let o := manifest version opts (experiment σ) tstring n in
    (exists formats,
       formats
       = match libraries (experiment σ) with
         | ReadExperiment libs => map (fun rl => toString (getFormat rl)) libs
         | AlignmentLibrary f => [toString f]
         end
       /\ field o "library_types" = Some (JStrings formats)
       /\ field o "num_libraries" = Some (JUInt (N.of_nat (length formats))))
    /\ field o "salmon_version" = Some (JStr version)
    /\ field o "seq_bias_correct" = Some (JBool (biasCorrect opts))
    /\ field o "gc_bias_correct" = Some (JBool (gcBiasCorrect opts))
    /\ field o "mapping_type"
       = Some (JStr (if alnMode opts then "alignment" else "mapping"))
    /\ field o "num_processed" = Some (JUInt (numObservedFragments (experiment σ)))
    /\ field o "num_mapped" = Some (JUInt (numMappedFragments (experiment σ)))
    /\ field o "start_time" = Some (JStr tstring)).
  { intros n o. split; [|repeat split; reflexivity].
    eexists; split; [reflexivity|]. rewrite <- getLibTypeStrings_map.
    split; reflexivity. }
  destruct (0 <? num_samples opts)%N.
  - destruct (transcripts (experiment σ)) as [|t ts] eqn:E; [congruence|].
    eexists; eexists; split; [reflexivity|]. cbn [fs with_fs with_self].
    split; [now apply lookup_artifacts_manifest|]. apply Hfields.
  - eexists; eexists; split; [reflexivity|]. cbn [fs with_fs with_self].
    split; [now apply lookup_artifacts_manifest|]. apply Hfields.
Qed.

Lemma mkdirs_result base rest m r m' :
  mkdirs base rest m = (r, m') ->
  creatable base rest m = match r with Some _ => true | None => false end.
Proof.
  intros E. destruct (creatable base rest m) eqn:C.
  - destruct (mkdirs_creatable _ _ _ C) as [b Hb]. rewrite Hb in E.
    now inversion E.
  - destruct (mkdirs_not_creatable _ _ _ C) as [m0 Hm]. rewrite Hm in E.
    now inversion E.
Qed.

Lemma mkdirs_ensure base rest m b m' :
  mkdirs base rest m = (Some b, m') -> m' = ensure base rest m.
Proof.
  intros E. pose proof (mkdirs_result _ _ _ _ _ E) as C. simpl in C.
  destruct (mkdirs_creatable _ _ _ C) as [b' Hb]. rewrite Hb in E.
  now inversion E.
Qed.

(** X5. [writeMeta] throws exactly when a regular file sits on the way
    to the directory it has to create: the bootstrap directory when
    samples are asked for, the aux directory otherwise.  When it throws
    it has written no file: every path holds what it held, or is a
    directory it created on the way; and [bsPath_] is already set when the
    aux directory itself could be created. *)
Theorem X5_writeMeta_throws opts tstring σ :
  let target := if (0 <? num_samples opts)%N
                then bootstrap_dir σ opts else aux_dir σ opts in
  match writeMeta samplesFromLogPMF version opts tstring σ with
  | Returned _ _ => creatable [] target (fs σ) = true
  | Threw σ' =>
      creatable [] target (fs σ) = false
      /\ (forall q, fs σ' !! q = fs σ !! q
                    \/ (fs σ !! q = None /\ fs σ' !! q = Some Dir))
      /\ bsPath_ (self σ')
         = (if creatable [] (aux_dir σ opts) (fs σ)
            then bootstrap_dir σ opts else bsPath_ (self σ))
      /\ experiment σ' = experiment σ
  | Undefined => False
  end.
Proof.
  intros target. subst target.
  rewrite writeMeta_outcome. cbv zeta.
  destruct (mkdirs [] (aux_dir σ opts) (fs σ)) as [[b|] m1] eqn:H1.
  - pose proof (mkdirs_result _ _ _ _ _ H1) as C1. cbv iota in C1.
    pose proof (mkdirs_ensure _ _ _ _ _ H1) as E1.
    destruct (0 <? num_samples opts)%N; [|exact C1].
    destruct (mkdirs [] (bootstrap_dir σ opts) m1) as [[b2|] m2] eqn:H2.
    + pose proof (mkdirs_result _ _ _ _ _ H2) as C2. cbv iota in C2.
      rewrite E1, creatable_ensure_eq in C2.
      destruct (transcripts (experiment σ)); exact C2.
    + pose proof (mkdirs_result _ _ _ _ _ H2) as C2. cbv iota in C2.
      rewrite E1, creatable_ensure_eq in C2.
      split; [exact C2|]. cbn [fs self experiment with_fs with_self with_bsPath bsPath_].
      rewrite C1. split; [|split; reflexivity].
      intros q.
      destruct (mkdirs_lookup_cases _ _ _ _ _ q H2) as [e2|(n2 & d2 & _)];
        destruct (mkdirs_lookup_cases _ _ _ _ _ q H1) as [e1|(n1 & d1 & _)].
      * left; congruence.
      * right; split; [assumption|congruence].
      * right; split; congruence.
      * congruence.
  - pose proof (mkdirs_result _ _ _ _ _ H1) as C1. cbv iota in C1.
    cbn [fs self experiment with_fs].
    rewrite C1. split.
    + destruct (0 <? num_samples opts)%N; [|exact C1].
      unfold bootstrap_dir.
      destruct (creatable [] (aux_dir σ opts ++ ["bootstrap"]) (fs σ)) eqn:C;
        [|reflexivity].
      apply creatable_app in C. congruence.
    + split; [|split; reflexivity]. intros q.
      destruct (mkdirs_lookup_cases _ _ _ _ _ q H1) as [e1|(n1 & d1 & _)];
        [left|right]; tauto.
Qed.

Lemma writeVectorToFile_run {T} `{Element T} p (vec : list T) σ :
  writeVectorToFile p vec σ
  = Returned true (with_fs σ (store p (gz_bytes (data vec)) (fs σ))).
Proof.
  unfold writeVectorToFile, gzip_open, gzip_close, gz_bytes. cbv zeta.
  rewrite firstn_data.
  rewrite (open_close_bind (fun x => Gzip 6 (Binary x)) [] p
             (fun os => write os (data vec)) (data vec) (ret true) σ);
    [reflexivity|reflexivity|].
  intros os Hb; unfold write, put; simpl; now rewrite Hb.
Qed.

(** X6. [writeVectorToFile] returns true whether or not the file could
    be opened.  When it could, the file holds afterwards, behind the
    compressor, the bytes of the vector's elements one after the other,
    [length * sizeof(element)] of them, replacing what was there; when it
    could not, the file system is as before.  No other path, the writer
    and the experiment are not touched. *)
Theorem X6_writeVectorToFile {T} `{Element T} p (vec : list T) σ :
  exists σ',
    writeVectorToFile p vec σ = Returned true σ'
    /\ self σ' = self σ /\ experiment σ' = experiment σ
    /\ (forall q, q ≠ p -> fs σ' !! q = fs σ !! q)
    /\ if can_open (fs σ) p
       then exists b,
              fs σ' !! p = Some (File (Gzip 6 (Binary b)))
              /\ b = flat_map raw vec
              /\ length b = length vec * @sizeof T _
       else fs σ' = fs σ.
Proof.
  rewrite writeVectorToFile_run. eexists; split; [reflexivity|].
  cbn [fs self experiment with_fs].
  split; [reflexivity|]. split; [reflexivity|].
  split; [intros q Hq; now apply lookup_store_ne|].
  destruct (can_open (fs σ) p) eqn:Ho.
  - exists (data vec). split; [now apply lookup_store_eq|].
    split; [reflexivity|apply data_length].
  - unfold store. now rewrite Ho.
Qed.

(** *** Series of [writeBootstrap] calls and the destructor *)

Lemma writeBootstrap_run {T} `{Element T} (abund : list T) σ :
  writeBootstrap abund σ = Returned true (after_writeBootstrap abund σ).
Proof.
  unfold writeBootstrap, after_writeBootstrap, bind at 1, get_self.
  rewrite Nat.mul_comm, firstn_data.
  destruct (bsStream_ (self σ)) as [s|] eqn:Hs.
  - reflexivity.
  - unfold bind at 1, gzip_open. rewrite open_run.
    destruct (can_open (fs σ) _); reflexivity.
Qed.

Lemma appends_run {T} `{Element T} (vs : list (list T)) σ :
  appends vs σ
  = Returned true (fold_left (fun s v => after_writeBootstrap v s) vs σ).
Proof.
  unfold appends. revert σ. induction vs as [|v vs IH]; intros σ; [reflexivity|].
  cbn [for_each fold_left]. unfold bind. rewrite writeBootstrap_run. apply IH.
Qed.

Lemma wrote_records_S from n :
  wrote_records from (S n)
  = (info, ("wrote " ++ dec (from + 1) ++ " bootstraps")%string)
      :: wrote_records (from + 1) n.
Proof.
  unfold wrote_records. cbn [seq map]. f_equal.
  rewrite <- seq_shift, map_map. apply map_ext. intros i.
  now replace (from + N.of_nat (S i))%N with (from + 1 + N.of_nat i)%N by lia.
Qed.

(** The writer after a series of calls that found a stream. *)
Lemma appends_open {T} `{Element T} (vs : list (list T)) σ s :
  bsStream_ (self σ) = Some s ->
  let σ' := fold_left (fun s v => after_writeBootstrap v s) vs σ in
  fs σ' = fs σ /\ experiment σ' = experiment σ
  /\ path_ (self σ') = path_ (self σ) /\ bsPath_ (self σ') = bsPath_ (self σ)
  /\ bsStream_ (self σ')
     = Some {| sink := sink s; buf := buf s ++ concat (map data vs) |}
  /\ numBootstrapsWritten_ (self σ')
     = (numBootstrapsWritten_ (self σ) + N.of_nat (length vs))%N
  /\ logger_ (self σ')
     = logger_ (self σ)
         ++ wrote_records (numBootstrapsWritten_ (self σ)) (length vs).
Proof.
  revert σ s. induction vs as [|v vs IH]; intros σ s Hs; cbn [fold_left].
  - cbn [map concat length wrote_records seq].
    rewrite !app_nil_r, N.add_0_r. destruct s; repeat split; assumption.
  - destruct (IH (after_writeBootstrap v σ) (write s (data v)))
      as (Hfs & He & Hp & Hb & Hst & Hn & Hl).
    { unfold after_writeBootstrap. rewrite Hs. reflexivity. }
    cbv zeta. rewrite Hfs, He, Hp, Hb, Hst, Hn, Hl.
    unfold after_writeBootstrap. rewrite Hs.
    cbn [fs self experiment path_ bsPath_ bsStream_ numBootstrapsWritten_ logger_
         fst snd write put sink buf map concat length].
    rewrite wrote_records_S, <- !app_assoc.
    repeat split; try reflexivity. lia.
Qed.

(** The writer after a series of calls the first of which had to open
    the stream. *)
Lemma appends_fresh {T} `{Element T} (v : list T) (vs : list (list T)) σ :
  bsStream_ (self σ) = None ->
  let p := bsPath_ (self σ) ++ ["bootstraps.gz"] in
  let σ' := fold_left (fun s v => after_writeBootstrap v s) (v :: vs) σ in
  fs σ' = (if can_open (fs σ) p
           then <[p:=File (Gzip 6 (Binary []))]> (fs σ) else fs σ)
  /\ experiment σ' = experiment σ
  /\ path_ (self σ') = path_ (self σ) /\ bsPath_ (self σ') = bsPath_ (self σ)
  /\ bsStream_ (self σ')
     = Some {| sink := if can_open (fs σ) p then Some p else None;
               buf := concat (map data (v :: vs)) |}
  /\ numBootstrapsWritten_ (self σ')
     = (numBootstrapsWritten_ (self σ) + N.of_nat (length (v :: vs)))%N
  /\ logger_ (self σ')
     = logger_ (self σ)
         ++ wrote_records (numBootstrapsWritten_ (self σ)) (length (v :: vs)).
Proof.
  intros Hs p σ'. subst σ'. cbn [fold_left].
  set (s1 := {| sink := if can_open (fs σ) p then Some p else None;
                buf := data v |}).
  destruct (appends_open vs (after_writeBootstrap v σ) s1)
    as (Hfs & He & Hp & Hb & Hst & Hn & Hl).
  { unfold after_writeBootstrap. rewrite Hs. fold p. subst s1.
    destruct (can_open (fs σ) p); reflexivity. }
  rewrite Hfs, He, Hp, Hb, Hst, Hn, Hl.
  unfold after_writeBootstrap. rewrite Hs. fold p. subst s1.
  cbn [fs self experiment path_ bsPath_ bsStream_ numBootstrapsWritten_ logger_
       sink buf map concat length].
  rewrite wrote_records_S, <- !app_assoc.
  destruct (can_open (fs σ) p); repeat split; try reflexivity; lia.
Qed.

Lemma concat_data_length {T} `{Element T} (vs : list (list T)) :
  length (concat (map data vs)) = list_sum (map (@length T) vs) * @sizeof T _.
Proof.
  induction vs as [|v vs IH]; [reflexivity|].
  cbn [map concat]. rewrite length_app, data_length, IH.
  change (list_sum (length v :: map (@length T) vs))
    with (length v + list_sum (map (@length T) vs)).
  now rewrite Nat.mul_add_distr_r.
Qed.

(** X7. A series of [writeBootstrap] calls, in the order in which they
    took the lock, all return true; the stream's buffer grows by the bytes
    of the vectors in that order, [sizeof(element)] bytes for every
    element of every vector; the written-count grows by the number of
    calls and the log by one record "wrote N bootstraps" per call, N
    counting on from the count found.  The experiment is not touched. *)
Theorem X7_writeBootstrap_series {T} `{Element T} (vs : list (list T)) σ :
  let w := self σ in
  let buffered (w : GZipWriter) :=
    match bsStream_ w with Some s => buf s | None => [] end in
  exists σ',
    appends vs σ = Returned true σ'
    /\ buffered (self σ') = buffered w ++ concat (map data vs)
    /\ length (concat (map data vs))
       = list_sum (map (@length T) vs) * @sizeof T _
    /\ numBootstrapsWritten_ (self σ')
       = (numBootstrapsWritten_ w + N.of_nat (length vs))%N
    /\ logger_ (self σ')
       = logger_ w ++ wrote_records (numBootstrapsWritten_ w) (length vs)
    /\ experiment σ' = experiment σ.
Proof.
  intros w buffered. subst w buffered. cbv beta.
  rewrite appends_run. eexists; split; [reflexivity|].
  split; [|split; [apply concat_data_length|]].
  - destruct (bsStream_ (self σ)) as [s|] eqn:Hs.
    + destruct (appends_open vs σ s Hs) as (_ & _ & _ & _ & Hst & _).
      now rewrite Hst.
    + destruct vs as [|v vs]; [cbn [fold_left]; now rewrite Hs|].
      destruct (appends_fresh v vs σ Hs) as (_ & _ & _ & _ & Hst & _).
      now rewrite Hst.
  - destruct (bsStream_ (self σ)) as [s|] eqn:Hs.
    + destruct (appends_open vs σ s Hs) as (_ & He & _ & _ & _ & Hn & Hl).
      now rewrite Hn, Hl, He.
    + destruct vs as [|v vs].
      * cbn [fold_left length wrote_records seq map].
        now rewrite app_nil_r, N.add_0_r.
      * destruct (appends_fresh v vs σ Hs) as (_ & He & _ & _ & _ & Hn & Hl).
        now rewrite Hn, Hl, He.
Qed.

(** X8. A series of calls on a writer without a stream, followed by the
    destructor: when [bootstraps.gz] in the bootstrap directory can be
    opened, it holds afterwards, behind the compressor, the bytes of all
    the vectors in call order and nothing else, whatever it held before;
    no other path has changed. *)
Theorem X8_bootstraps_flushed {T} `{Element T} (vs : list (list T)) σ :
  bsStream_ (self σ) = None ->
  vs ≠ [] ->
  let p := bsPath_ (self σ) ++ ["bootstraps.gz"] in
  can_open (fs σ) p = true ->
  exists σ',
    (appends vs ;; destroy) σ = Returned tt σ'
    /\ fs σ' !! p = Some (File (Gzip 6 (Binary (concat (map data vs)))))
    /\ (forall q, q ≠ p -> fs σ' !! q = fs σ !! q)
    /\ experiment σ' = experiment σ.
Proof.
  intros Hs Hvs p Ho. destruct vs as [|v vs]; [congruence|].
  unfold bind. rewrite appends_run.
  destruct (appends_fresh v vs σ Hs) as (Hfs & He & _ & _ & Hst & _).
  fold p in Hfs, Hst. rewrite Ho in Hfs, Hst.
  unfold destroy, bind, get_self. rewrite Hst.
  unfold gzip_close, close. cbn [sink buf].
  unfold bind, get_fs, set_fs. eexists; split; [reflexivity|].
  cbn [fs experiment with_fs]. rewrite Hfs.
  split; [apply lookup_insert_eq|]. split; [|exact He].
  intros q Hq. now rewrite !lookup_insert_ne by congruence.
Qed.

Lemma can_open_in_bootstrap m aux (f : string) :
  creatable [] (aux ++ ["bootstrap"]) m = true ->
  is_dir m ((aux ++ ["bootstrap"]) ++ [f]) = false ->
  can_open (ensure [] (aux ++ ["bootstrap"]) (ensure [] aux m))
           ((aux ++ ["bootstrap"]) ++ [f]) = true.
Proof.
  intros Hc Hd. apply can_open_child.
  - apply (is_dir_ensure [] (aux ++ ["bootstrap"])); [|reflexivity].
    now apply creatable_ensure.
  - rewrite !is_dir_ensure_frame; [assumption| |].
    + intros Hp. apply prefix_length in Hp. rewrite !length_app in Hp.
      simpl in Hp. lia.
    + apply prefix_snoc_not.
Qed.

(** X9. [writeMeta] with samples asked for, then a series of
    [writeBootstrap] calls, then the destructor: the bootstrap directory
    under the aux directory holds [names.tsv.gz] with the transcript
    names and, beside it, [bootstraps.gz] with the bytes of all the
    vectors in call order. *)
Theorem X9_bootstrap_directory {T} `{Element T} opts tstring
    (vs : list (list T)) σ :
  (0 < num_samples opts)%N ->
  transcripts (experiment σ) ≠ [] ->
  bsStream_ (self σ) = None ->
  vs ≠ [] ->
  let bs := bootstrap_dir σ opts in
  creatable [] bs (fs σ) = true ->
  is_dir (fs σ) (bs ++ ["names.tsv.gz"]) = false ->
  is_dir (fs σ) (bs ++ ["bootstraps.gz"]) = false ->
  exists σ',
    (writeMeta samplesFromLogPMF version opts tstring ;; appends vs ;; destroy) σ
    = Returned tt σ'
    /\ fs σ' !! (bs ++ ["names.tsv.gz"])
       = Some (File (Gzip 6 (Text (names_line
                                     (map RefName (transcripts (experiment σ)))))))
    /\ fs σ' !! (bs ++ ["bootstraps.gz"])
       = Some (File (Gzip 6 (Binary (concat (map data vs))))).
Proof.
  intros Hns Hts Hs Hvs bs Hc Hdn Hdb. subst bs.
  destruct vs as [|v vs]; [congruence|].
  unfold bind at 1.
  rewrite (writeMeta_run samplesFromLogPMF version opts tstring σ Hc). cbv zeta.
  apply N.ltb_lt in Hns. rewrite Hns.
  destruct (transcripts (experiment σ)) as [|t ts] eqn:E; [congruence|].
  match goal with |- context [bind (appends _) _ ?s] => set (σ1 := s) end.
  assert (Hs1 : bsStream_ (self σ1) = None) by exact Hs.
  assert (Hb1 : bsPath_ (self σ1) = bootstrap_dir σ opts) by reflexivity.
  assert (Ho1 : can_open (fs σ1) (bootstrap_dir σ opts ++ ["bootstraps.gz"]) = true).
  { subst σ1. cbn [fs with_fs with_self]. unfold can_open.
    rewrite !is_dir_artifacts, !is_dir_store. fold (can_open
      (ensure [] (bootstrap_dir σ opts) (ensure [] (aux_dir σ opts) (fs σ)))
      (bootstrap_dir σ opts ++ ["bootstraps.gz"])).
    now apply can_open_in_bootstrap. }
  assert (Hn1 : fs σ1 !! (bootstrap_dir σ opts ++ ["names.tsv.gz"])
                = Some (File (Gzip 6 (Text (names_line (map RefName (t :: ts))))))).
  { subst σ1. cbn [fs with_fs with_self]. rewrite lookup_artifacts_frame.
    - apply lookup_store_eq. now apply can_open_names.
    - intros f Hf. apply below_not_sibling; [|assumption].
      now apply prefix_app_r. }
  unfold bind. rewrite appends_run.
  destruct (appends_fresh v vs σ1 Hs1) as (Hfs & _ & _ & _ & Hst & _).
  rewrite Hb1, Ho1 in Hfs, Hst.
  unfold destroy, bind, get_self. rewrite Hst.
  unfold gzip_close, close. cbn [sink buf].
  unfold bind, get_fs, set_fs. eexists; split; [reflexivity|].
  cbn [fs with_fs]. rewrite Hfs. split; [|apply lookup_insert_eq].
  rewrite !lookup_insert_ne; [exact Hn1| |];
    intros Heq; apply app_inj_tail in Heq; destruct Heq; discriminate.
Qed.

(** *** [writeAbundances] and [writeEquivCounts] once more *)

Lemma can_open_insert_self m p c :
  can_open m p = true -> can_open (<[p:=File c]> m) p = true.
Proof.
  intros Ho. pose proof (can_open_store p c m p) as Hs.
  unfold store in Hs. rewrite Ho in Hs. exact Hs.
Qed.

Lemma after_writeAbundances_twice sopt σ :
  after_writeAbundances sopt (after_writeAbundances sopt σ)
  = after_writeAbundances sopt σ.
Proof.
  unfold after_writeAbundances.
  cbn [fs self experiment transcripts upperBoundHits set_transcripts].
  rewrite insert_insert_eq, map_map.
  assert (Hts : map (fun t => set_projectedCounts
                                (set_projectedCounts t
                                   (projected sopt (upperBoundHits (experiment σ)) t))
                                (projected sopt (upperBoundHits (experiment σ))
                                   (set_projectedCounts t
                                      (projected sopt (upperBoundHits (experiment σ)) t))))
                    (transcripts (experiment σ))
                = map (fun t => set_projectedCounts t
                                  (projected sopt (upperBoundHits (experiment σ)) t))
                      (transcripts (experiment σ)))
    by (apply map_ext; reflexivity).
  rewrite Hts. reflexivity.
Qed.

(** X10. Calling [writeAbundances] a second time changes nothing: the
    projected counts are computed from the masses and shared counts, not
    from the counts of the call before, and [quant.sf] is written anew
    with the same rows; so two calls in a row leave the state, and end,
    as one call does. *)
Theorem X10_writeAbundances_twice sopt σ :
  (writeAbundances sopt ;; writeAbundances sopt) σ = writeAbundances sopt σ.
Proof.
  unfold bind. rewrite writeAbundances_run.
  destruct (can_open (fs σ) (path_ (self σ) ++ ["quant.sf"])) eqn:Ho;
    [|reflexivity].
  rewrite writeAbundances_run.
  assert (Ho' : can_open (fs (after_writeAbundances sopt σ))
                  (path_ (self (after_writeAbundances sopt σ)) ++ ["quant.sf"])
                = true)
    by (unfold after_writeAbundances; cbn [fs self];
        apply (can_open_insert_self _ _ _ Ho)).
  rewrite Ho'. now rewrite after_writeAbundances_twice.
Qed.

(** X11. [writeAbundances] writes [quant.sf] in the writer's directory
    and nothing else: it creates no directory (with the directory missing
    the handle is null and the behaviour undefined), every other path
    holds what it held, and the writer is as it was; it never leaves by
    an exception. *)
Theorem X11_writeAbundances_frame sopt σ :
  let file := path_ (self σ) ++ ["quant.sf"] in
  match writeAbundances sopt σ with
  | Returned b σ' =>
      b = true
      /\ is_dir (fs σ) (path_ (self σ)) = true
      /\ is_dir (fs σ) file = false
      /\ self σ' = self σ
      /\ (forall q, q ≠ file -> fs σ' !! q = fs σ !! q)
      /\ (forall q, is_dir (fs σ') q = is_dir (fs σ) q)
  | Threw _ => False
  | Undefined =>
      is_dir (fs σ) (path_ (self σ)) = false \/ is_dir (fs σ) file = true
  end.
Proof.
  intros file. rewrite writeAbundances_run. fold file.
  destruct (can_open (fs σ) file) eqn:Ho.
  - unfold can_open in Ho. subst file. rewrite removelast_last in Ho.
    apply andb_prop in Ho. destruct Ho as [Hd Hf].
    apply negb_true_iff in Hf.
    split; [reflexivity|]. split; [exact Hd|]. split; [exact Hf|].
    split; [reflexivity|].
    unfold after_writeAbundances. cbn [fs].
    split; [intros q Hq; now rewrite lookup_insert_ne|].
    intros q. now apply is_dir_insert_File.
  - unfold can_open in Ho. subst file. rewrite removelast_last in Ho.
    apply andb_false_iff in Ho. destruct Ho as [Hd|Hf]; [now left|right].
    now apply negb_false_iff in Hf.
Qed.

Lemma lookup_store_Dir p (c : content A) m q :
  m !! q = Some Dir -> store p c m !! q = Some Dir.
Proof.
  intros Hq. unfold store. destruct (can_open m p) eqn:Ho; [|assumption].
  destruct (decide (p = q)) as [->|Hne]; [|now rewrite lookup_insert_ne].
  unfold can_open in Ho. apply andb_prop in Ho. destruct Ho as [_ Ho].
  apply negb_true_iff in Ho. destruct q as [|x q]; [discriminate|].
  unfold is_dir in Ho. now rewrite Hq in Ho.
Qed.

Lemma store_store p (c : content A) m : store p c (store p c m) = store p c m.
Proof.
  unfold store at 1. rewrite can_open_store. unfold store.
  destruct (can_open m p); [|reflexivity]. apply insert_insert_eq.
Qed.

(** Directories that are all there are found, not created. *)
Lemma mkdirs_again base rest m m' :
  creatable base rest m = true ->
  (forall q, ensure base rest m !! q = Some Dir -> m' !! q = Some Dir) ->
  exists b, mkdirs base rest m' = (Some b, m').
Proof.
  revert base m; induction rest as [|c rest IH]; intros base m Hc Hm.
  - now exists false.
  - simpl in *.
    assert (Hd : m' !! (base ++ [c]) = Some Dir).
    { apply Hm. apply ensure_lookup_Some.
      destruct (m !! (base ++ [c])) as [[|?]|] eqn:Hd;
        [assumption|discriminate|apply lookup_insert_eq]. }
    rewrite Hd. eapply IH; [|exact Hm].
    destruct (m !! (base ++ [c])) as [[|?]|] eqn:Hd';
      [assumption|discriminate|]. rewrite creatable_insert; auto.
Qed.

(** X12. Calling [writeEquivCounts] a second time changes nothing: the
    directories are found where the first call made them and
    [eq_classes.txt] is written anew with the same text; when the first
    call throws there is no second.  Two calls in a row leave the state,
    and end, as one call does. *)
Theorem X12_writeEquivCounts_twice opts σ :
  (writeEquivCounts opts ;; writeEquivCounts opts) σ = writeEquivCounts opts σ.
Proof.
  unfold bind. rewrite writeEquivCounts_run.
  destruct (mkdirs [] (aux_dir σ opts) (fs σ)) as [[b|] m1] eqn:H1;
    [|reflexivity].
  pose proof (mkdirs_result _ _ _ _ _ H1) as C1. cbv iota in C1.
  pose proof (mkdirs_ensure _ _ _ _ _ H1) as E1.
  rewrite writeEquivCounts_run.
  match goal with |- context [with_fs σ (store ?p ?c m1)] =>
    set (file := p); set (text := c) end.
  change (aux_dir (with_fs σ (store file text m1)) opts) with (aux_dir σ opts).
  change (experiment (with_fs σ (store file text m1))) with (experiment σ).
  change (fs (with_fs σ (store file text m1))) with (store file text m1).
  destruct (mkdirs_again [] (aux_dir σ opts) (fs σ) (store file text m1) C1)
    as [b' Hb'].
  { intros q Hq. apply lookup_store_Dir. now rewrite E1. }
  rewrite Hb'. fold file text. now rewrite with_fs_with_fs, store_store.
Qed.

(** X13. Whatever the file system, [writeEquivCounts] touches nothing
    but the directories on the way to the aux directory, which it creates
    where missing, and [eq_classes.txt] in it; the writer is as it was, and
    the call returns or throws. *)
Theorem X13_writeEquivCounts_inventory opts σ :
  match writeEquivCounts opts σ with
  | Returned _ σ' | Threw σ' =>
      self σ' = self σ
      /\ forall q,
           fs σ' !! q ≠ fs σ !! q ->
           (fs σ !! q = None /\ fs σ' !! q = Some Dir
            /\ q `prefix_of` aux_dir σ opts)
           \/ q = aux_dir σ opts ++ ["eq_classes.txt"]
  | Undefined => False
  end.
Proof.
  rewrite writeEquivCounts_run.
  destruct (mkdirs [] (aux_dir σ opts) (fs σ)) as [[b|] m1] eqn:H1;
    (split; [reflexivity|]); intros q Hq; cbn [fs with_fs] in Hq |- *.
  - destruct (lookup_store_cases (aux_dir σ opts ++ ["eq_classes.txt"])
                (Text (eq_classes_layout
                         (map RefName (transcripts (experiment σ)))
                         (map (fun eq => (N.of_nat (length (txps (fst eq))),
                                          txps (fst eq), count (snd eq)))
                              (eqVec (experiment σ))))) m1 q) as [Hs|Hs];
      [|now right].
    rewrite Hs in Hq |- *.
    destruct (mkdirs_lookup_cases _ _ _ _ _ q H1) as [e1|(n1 & d1 & p1)];
      [congruence|left; auto].
  - destruct (mkdirs_lookup_cases _ _ _ _ _ q H1) as [e1|(n1 & d1 & p1)];
      [congruence|left; auto].
Qed.

(** X16. Of the writer, [writeMeta] changes the bootstrap path and
    nothing else: the output path, the bootstrap stream, the written-count
    and the logger are as they were.  The bootstrap path is set to
    [bootstrap/] under the aux directory exactly when samples are asked
    for and the aux directory could be created, before anything is
    written below it; without samples it keeps the value it had. *)
Theorem X16_writeMeta_writer opts tstring σ :
  match writeMeta samplesFromLogPMF version opts tstring σ with
  | Returned _ σ' | Threw σ' =>
      path_ (self σ') = path_ (self σ)
      /\ bsStream_ (self σ') = bsStream_ (self σ)
      /\ numBootstrapsWritten_ (self σ') = numBootstrapsWritten_ (self σ)
      /\ logger_ (self σ') = logger_ (self σ)
      /\ bsPath_ (self σ')
         = (if (0 <? num_samples opts)%N && creatable [] (aux_dir σ opts) (fs σ)
            then bootstrap_dir σ opts else bsPath_ (self σ))
  | Undefined => False
  end.
Proof.
  rewrite writeMeta_outcome. cbv zeta.
  destruct (mkdirs [] (aux_dir σ opts) (fs σ)) as [[b|] m1] eqn:H1;
    pose proof (mkdirs_result _ _ _ _ _ H1) as C1; cbv iota in C1; rewrite C1.
  - destruct (0 <? num_samples opts)%N; cbn [andb].
    + destruct (mkdirs [] (bootstrap_dir σ opts) m1) as [[b2|] m2];
        [destruct (transcripts (experiment σ))|];
        cbn [self with_fs with_self with_bsPath path_ bsPath_ bsStream_
             numBootstrapsWritten_ logger_]; repeat split; reflexivity.
    + cbn [self with_fs]. repeat split; reflexivity.
  - rewrite andb_false_r. cbn [self with_fs]. repeat split; reflexivity.
Qed.

End Coverage.

(** ** No mapped fragment, in machine arithmetic *)

Section NoMappedFragments.
Context {FLD : Type}.

Implicit Types (x y : float) (σ : @State float FLD).

Lemma nan_unique x : Prim2SF x = S754_nan -> x = nan.
Proof. intros Hx. rewrite <- (SF2Prim_Prim2SF x), Hx. reflexivity. Qed.

Lemma div_zero_unbounded x : unbounded (x / 0) = true.
Proof.
  unfold unbounded. rewrite div_spec.
  change (Prim2SF 0) with (S754_zero false).
  destruct (Prim2SF x) as [s|s| |s m e]; reflexivity.
Qed.

Lemma div_unbounded x y : unbounded x = true -> unbounded (x / y) = true.
Proof.
  unfold unbounded. rewrite div_spec.
  destruct (Prim2SF x) as [s|s| |s m e]; try discriminate; intros _;
    destruct (Prim2SF y) as [s'|s'| |s' m' e']; reflexivity.
Qed.

Lemma add_unbounded_r x y : unbounded y = true -> unbounded (x + y) = true.
Proof.
  unfold unbounded. rewrite add_spec.
  destruct (Prim2SF y) as [s|s| |s m e]; try discriminate; intros _;
    destruct (Prim2SF x) as [s'|s'| |s' m' e']; try reflexivity;
    destruct s', s; reflexivity.
Qed.

Lemma add_unbounded_l x y : unbounded x = true -> unbounded (x + y) = true.
Proof.
  unfold unbounded. rewrite add_spec.
  destruct (Prim2SF x) as [s|s| |s m e]; try discriminate; intros _;
    destruct (Prim2SF y) as [s'|s'| |s' m' e']; try reflexivity;
    destruct s, s'; reflexivity.
Qed.

Lemma div_unbounded_nan x y :
  unbounded x = true -> unbounded y = true -> (x / y)%float = nan.
Proof.
  unfold unbounded. intros Hx Hy. apply nan_unique. rewrite div_spec.
  destruct (Prim2SF x) as [s|s| |s m e]; try discriminate;
    destruct (Prim2SF y) as [s'|s'| |s' m' e']; try discriminate; reflexivity.
Qed.

Lemma mul_nan y : (nan * y)%float = nan.
Proof.
  apply nan_unique. rewrite mul_spec.
  change (Prim2SF nan) with S754_nan. reflexivity.
Qed.

Lemma Sigma_unbounded_acc (l : list float) acc :
  unbounded acc = true -> (forall y, In y l -> unbounded y = true) ->
  unbounded (fold_left add l acc) = true.
Proof.
  revert acc. induction l as [|y l IH]; intros acc Hacc Hall; [exact Hacc|].
  cbn [fold_left]. apply IH.
  - now apply add_unbounded_l.
  - intros y' Hy'. apply Hall. now right.
Qed.

Lemma Sigma_unbounded (l : list float) acc :
  l <> [] -> (forall y, In y l -> unbounded y = true) ->
  unbounded (fold_left add l acc) = true.
Proof.
  destruct l as [|y l]; [congruence|]. intros _ Hall.
  cbn [fold_left]. apply Sigma_unbounded_acc.
  - apply add_unbounded_r, Hall. now left.
  - intros y' Hy'. apply Hall. now right.
Qed.

Lemma TPM_no_mapped (ts : list (Transcript float)) t :
  In t ts -> TPM 0%float ts t = nan.
Proof.
  intros Hin. unfold TPM, D, Sigma, npm.
  assert (Hterm : forall t' : Transcript float,
            unbounded (div (div (projectedCounts t') 0%float) (EffectiveLength t'))
            = true)
    by (intros t'; apply div_unbounded, div_zero_unbounded).
  rewrite div_unbounded_nan; [apply mul_nan|apply Hterm|].
  apply Sigma_unbounded.
  - destruct ts; [destruct Hin|discriminate].
  - intros y Hy. apply in_map_iff in Hy. destruct Hy as (t' & <- & _). apply Hterm.
Qed.

(** X14. In binary64, when the experiment has no mapped fragment
    ([upperBoundHits() = 0]), every row of [quant.sf] has NaN for its TPM,
    whatever the transcripts' counts and effective lengths: each share is
    a quotient by zero, so infinite or NaN, and so is their sum. *)
Theorem X14_no_mapped_fragments sopt σ :
  upperBoundHits (experiment σ) = 0%N ->
  can_open (fs σ) (path_ (self σ) ++ ["quant.sf"]) = true ->
  exists σ' calls,
    writeAbundances sopt σ = Returned true σ'
    /\ fs σ' !! (path_ (self σ) ++ ["quant.sf"]) = Some (File (Formatted calls))
    /\ length calls = S (length (transcripts (experiment σ)))
    /\ TPM_column calls = map (fun _ => nan) (transcripts (experiment σ)).
Proof.
  intros Hz Ho. rewrite writeAbundances_run, Ho.
  eexists; eexists; split; [reflexivity|].
  unfold after_writeAbundances. cbn [fs]. split; [apply lookup_insert_eq|].
  split; [unfold quant_sf; cbn [length]; now rewrite !length_map|].
  rewrite TPM_column_quant_sf, Hz.
  change (of_N 0) with 0%float.
  set (ts' := map _ (transcripts (experiment σ))).
  transitivity (map (fun _ : Transcript float => nan) ts').
  - apply map_ext_in. intros t Ht. now apply TPM_no_mapped.
  - subst ts'. now rewrite map_map.
Qed.

End NoMappedFragments.

(** ** Shares under exact arithmetic *)

Section ExactShares.
Context {FLD : Type}.
Local Open Scope Q_scope.






End ExactShares.

(** ** The further properties at the scenarios *)

(** X2 at S1: the expected-bias vector. *)
Lemma X2_witness :
  creatable [] (bootstrap_dir (S1 (A:=float)) (options 0 0 true)) (fs S1) = true
  /\ transcripts (experiment (S1 (A:=float))) ≠ []
  /\ result (writeMeta sampler "0.6.0" (options 0 0 true) "now" (S1 (A:=float)))
     = Some true
  /\ file_after (writeMeta sampler "0.6.0" (options 0 0 true) "now" (S1 (A:=float)))
                ["out"; "aux_info"; "expected_bias.gz"]
     = Some (File (Gzip 6 (Binary (raw 1%float)))).
Proof.
  assert (H1 : creatable [] (bootstrap_dir (S1 (A:=float)) (options 0 0 true)) (fs S1)
               = true) by (vm_compute; reflexivity).
  assert (H2 : transcripts (experiment (S1 (A:=float))) ≠ []) by discriminate.
  split; [exact H1|]. split; [exact H2|].
  destruct (X2_writeMeta_artifacts (A:=float) sampler "0.6.0" (options 0 0 true) "now"
              S1 H1 H2) as (σ' & Hr & Hfiles).
  rewrite Hr. split; [reflexivity|]. cbn [file_after].
  assert (Hd : is_dir (fs (S1 (A:=float)))
                 (aux_dir (S1 (A:=float)) (options 0 0 true) ++ ["expected_bias.gz"])
               = false) by (vm_compute; reflexivity).
  refine (eq_trans (Hfiles "expected_bias.gz" _ (or_intror (or_introl eq_refl)) Hd) _).
  vm_compute. reflexivity.
Defined.

(** X3 at S1: one paired-end library. *)
Lemma X3_witness :
  creatable [] (bootstrap_dir (S1 (A:=float)) (options 0 0 true)) (fs S1) = true
  /\ transcripts (experiment (S1 (A:=float))) ≠ []
  /\ is_dir (fs (S1 (A:=float)))
            (aux_dir (S1 (A:=float)) (options 0 0 true) ++ ["meta_info.json"]) = false
  /\ exists o,
       file_after (writeMeta sampler "0.6.0" (options 0 0 true) "now" (S1 (A:=float)))
                  ["out"; "aux_info"; "meta_info.json"]
       = Some (File (Json o))
       /\ field o "library_types" = Some (JStrings ["IU"])
       /\ field o "num_libraries" = Some (JUInt 1)
       /\ field o "salmon_version" = Some (JStr "0.6.0")
       /\ field o "mapping_type" = Some (JStr "mapping")
       /\ field o "num_processed" = Some (JUInt 1200)
       /\ field o "num_mapped" = Some (JUInt 1000)
       /\ field o "start_time" = Some (JStr "now").
Proof.
  assert (H1 : creatable [] (bootstrap_dir (S1 (A:=float)) (options 0 0 true)) (fs S1)
               = true) by (vm_compute; reflexivity).
  assert (H2 : transcripts (experiment (S1 (A:=float))) ≠ []) by discriminate.
  assert (H3 : is_dir (fs (S1 (A:=float)))
                 (aux_dir (S1 (A:=float)) (options 0 0 true) ++ ["meta_info.json"])
               = false) by (vm_compute; reflexivity).
  split; [exact H1|]. split; [exact H2|]. split; [exact H3|].
  destruct (X3_manifest_fields (A:=float) sampler "0.6.0" (options 0 0 true) "now"
              S1 H1 H2 H3)
    as (σ' & o & Hr & Ho & (formats & -> & Hl & Hn) & Hv & _ & _ & Hm & Hp & Hmp & Ht).
  rewrite Hr. exists o. split; [exact Ho|].
  split; [exact Hl|]. split; [exact Hn|]. split; [exact Hv|].
  split; [exact Hm|]. split; [exact Hp|]. split; [exact Hmp|exact Ht].
Defined.

(** X4 at S1. *)
Lemma X4_witness :
  creatable [] (bootstrap_dir (S1 (A:=float)) (options 0 0 true)) (fs S1) = true
  /\ transcripts (experiment (S1 (A:=float))) ≠ []
  /\ (forall f,
        In f ["fld.gz"; "observed_bias.gz"; "observed_bias_3p.gz"; "meta_info.json"] ->
        is_dir (fs (S1 (A:=float)))
               (aux_dir (S1 (A:=float)) (options 0 0 true) ++ [f]) = false)
  /\ exists o fld obs n bins,
       file_after (writeMeta sampler "0.6.0" (options 0 0 true) "now" (S1 (A:=float)))
                  ["out"; "aux_info"; "meta_info.json"]
       = Some (File (Json o))
       /\ gz_payload
            (file_after (writeMeta sampler "0.6.0" (options 0 0 true) "now"
                           (S1 (A:=float)))
                        ["out"; "aux_info"; "fld.gz"]) = Some fld
       /\ gz_payload
            (file_after (writeMeta sampler "0.6.0" (options 0 0 true) "now"
                           (S1 (A:=float)))
                        ["out"; "aux_info"; "observed_bias.gz"]) = Some obs
       /\ field o "frag_dist_length" = Some (JUInt n)
       /\ length fld = 4 * N.to_nat n
       /\ field o "num_bias_bins" = Some (JUInt bins)
       /\ length obs = 4 * N.to_nat bins.
Proof.
  assert (H1 : creatable [] (bootstrap_dir (S1 (A:=float)) (options 0 0 true)) (fs S1)
               = true) by (vm_compute; reflexivity).
  assert (H2 : transcripts (experiment (S1 (A:=float))) ≠ []) by discriminate.
  assert (H3 : forall f,
             In f ["fld.gz"; "observed_bias.gz"; "observed_bias_3p.gz"; "meta_info.json"] ->
             is_dir (fs (S1 (A:=float)))
                    (aux_dir (S1 (A:=float)) (options 0 0 true) ++ [f]) = false).
  { intros f [<-|[<-|[<-|[<-|[]]]]]; vm_compute; reflexivity. }
  split; [exact H1|]. split; [exact H2|]. split; [exact H3|].
  destruct (X4_manifest_sizes (A:=float) sampler "0.6.0" (options 0 0 true) "now"
              S1 H1 H2 H3)
    as (σ' & o & fld & obs & obs3 & n & bins
        & Hr & Ho & Hfld & Hobs & _ & Hn & Hlf & Hb & Hlo & _).
  rewrite Hr. exists o, fld, obs, n, bins.
  split; [exact Ho|]. split; [exact Hfld|]. split; [exact Hobs|].
  split; [exact Hn|]. split; [exact Hlf|]. split; [exact Hb|exact Hlo].
Defined.

(** X8 on the writer as constructed: two samples end up, 48 bytes, in
    [bootstraps.gz] of the working directory. *)
Lemma X8_witness :
  bsStream_ (self (S1 (A:=float))) = None
  /\ two_samples ≠ []
  /\ can_open (fs (S1 (A:=float))) (bsPath_ (self (S1 (A:=float))) ++ ["bootstraps.gz"])
     = true
  /\ file_after ((appends two_samples ;; destroy) (S1 (A:=float))) ["bootstraps.gz"]
     = Some (File (Gzip 6 (Binary (concat (map data two_samples)))))
  /\ length (concat (map data two_samples)) = 48.
Proof.
  assert (H1 : bsStream_ (self (S1 (A:=float))) = None) by reflexivity.
  assert (H2 : two_samples ≠ []) by discriminate.
  assert (H3 : can_open (fs (S1 (A:=float)))
                 (bsPath_ (self (S1 (A:=float))) ++ ["bootstraps.gz"]) = true)
    by (vm_compute; reflexivity).
  split; [exact H1|]. split; [exact H2|]. split; [exact H3|].
  destruct (X8_bootstraps_flushed (A:=float) two_samples S1 H1 H2 H3)
    as (σ' & Hr & Hf & _).
  rewrite Hr. split; [exact Hf|]. vm_compute. reflexivity.
Defined.

(** X9 at S2 (two bootstrap samples). *)
Lemma X9_witness :
  (0 < num_samples (options 2 0 true))%N
  /\ transcripts (experiment (S1 (A:=float))) ≠ []
  /\ bsStream_ (self (S1 (A:=float))) = None
  /\ two_samples ≠ []
  /\ creatable [] (bootstrap_dir (S1 (A:=float)) (options 2 0 true)) (fs S1) = true
  /\ is_dir (fs (S1 (A:=float)))
            (bootstrap_dir (S1 (A:=float)) (options 2 0 true) ++ ["names.tsv.gz"])
     = false
  /\ is_dir (fs (S1 (A:=float)))
            (bootstrap_dir (S1 (A:=float)) (options 2 0 true) ++ ["bootstraps.gz"])
     = false
  /\ file_after
       ((writeMeta sampler "0.6.0" (options 2 0 true) "now" ;;
         appends two_samples ;; destroy) (S1 (A:=float)))
       ["out"; "aux_info"; "bootstrap"; "bootstraps.gz"]
     = Some (File (Gzip 6 (Binary (concat (map data two_samples))))).
Proof.
  assert (H0 : (0 < num_samples (options 2 0 true))%N) by reflexivity.
  assert (H1 : transcripts (experiment (S1 (A:=float))) ≠ []) by discriminate.
  assert (H2 : bsStream_ (self (S1 (A:=float))) = None) by reflexivity.
  assert (H3 : two_samples ≠ []) by discriminate.
  assert (H4 : creatable [] (bootstrap_dir (S1 (A:=float)) (options 2 0 true)) (fs S1)
               = true) by (vm_compute; reflexivity).
  assert (H5 : is_dir (fs (S1 (A:=float)))
                 (bootstrap_dir (S1 (A:=float)) (options 2 0 true) ++ ["names.tsv.gz"])
               = false) by (vm_compute; reflexivity).
  assert (H6 : is_dir (fs (S1 (A:=float)))
                 (bootstrap_dir (S1 (A:=float)) (options 2 0 true) ++ ["bootstraps.gz"])
               = false) by (vm_compute; reflexivity).
  split; [exact H0|]. split; [exact H1|]. split; [exact H2|]. split; [exact H3|].
  split; [exact H4|]. split; [exact H5|]. split; [exact H6|].
  destruct (X9_bootstrap_directory (A:=float) sampler "0.6.0" (options 2 0 true) "now"
              two_samples S1 H0 H1 H2 H3 H4 H5 H6)
    as (σ' & Hr & _ & Hf).
  rewrite Hr. exact Hf.
Defined.

(** X14 at S1 with no fragment mapped. *)
Lemma X14_witness :
  upperBoundHits (experiment unmapped) = 0%N
  /\ can_open (fs unmapped) (path_ (self unmapped) ++ ["quant.sf"]) = true
  /\ exists calls,
       file_after (writeAbundances (options 0 0 true) unmapped) ["out"; "quant.sf"]
       = Some (File (Formatted calls))
       /\ TPM_column calls = [nan; nan; nan].
Proof.
  assert (H1 : upperBoundHits (experiment unmapped) = 0%N) by reflexivity.
  assert (H2 : can_open (fs unmapped) (path_ (self unmapped) ++ ["quant.sf"]) = true)
    by (vm_compute; reflexivity).
  split; [exact H1|]. split; [exact H2|].
  destruct (X14_no_mapped_fragments (options 0 0 true) unmapped H1 H2)
    as (σ' & calls & Hr & Hf & _ & Hcol).
  exists calls. rewrite Hr. split; [exact Hf|exact Hcol].
Defined.

